(** * Nuclear Isotopes Economics dashboard (app.py)

    A shallow embedding of the Streamlit script [app.py]: the compiled-in
    country table built by [load_data], the string-keyed navigation branch of
    [main], and the quiz counters kept in [st.session_state].

    One execution of the script (Streamlit re-executes it from the top on
    every interaction) is a computation in a small monad that reads the widget
    values of the interaction, appends the elements it draws to the page,
    updates the session dictionary and may stop with a Python exception
    ([st.experimental_rerun] stops the script by raising one). *)

From Stdlib Require Import ZArith QArith DecimalString DecimalNat.
From stdpp Require Import base list strings gmap sorting.

Local Open Scope string_scope.
Local Open Scope Z_scope.

(** ** Python values used by the script *)

(** [str(i)] for the non-negative integers of [enumerate]. *)
Definition str_of_nat (n : nat) : string :=
  NilEmpty.string_of_uint (Nat.to_uint n).

(** [str(z)] for a Python [int]. *)
Definition str_of_int (z : Z) : string :=
  match z with
  | Z0 => "0"
  | Zpos p => str_of_nat (Pos.to_nat p)
  | Zneg p => "-" +:+ str_of_nat (Pos.to_nat p)
  end.

(** [l[z]] on a Python list: negative indices count from the end, anything
    outside [-len, len) raises [IndexError] (here [None]). *)
Definition py_getitem {A : Type} (l : list A) (z : Z) : option A :=
  let n := Z.of_nat (length l) in
  if (0 <=? z) && (z <? n) then l !! Z.to_nat z
  else if (- n <=? z) && (z <? 0) then l !! Z.to_nat (n + z)
  else None.

(** ** Data frames *)

(** A [pd.DataFrame] built from a dict of four equally long columns, kept
    column-wise as pandas does. The float literals of [medical_use] are kept
    as the decimal fractions written in the source. *)
Record DataFrame := mkDataFrame {
  Country : list string;
  Isotope_Production : list Z;
  Medical_Procedures : list Q;
  CO2_Savings : list Z
}.

(** One row of the frame. *)
Record CountryStat := mkCountryStat {
  country : string;
  productionShare : Z;
  medicalProcedures : Q;
  co2Savings : Z
}.

Fixpoint zip_rows (cs : list string) (ps : list Z) (ms : list Q) (ss : list Z)
  : list CountryStat :=
  match cs, ps, ms, ss with
  | c :: cs', p :: ps', m :: ms', s :: ss' =>
      mkCountryStat c p m s :: zip_rows cs' ps' ms' ss'
  | _, _, _, _ => []
  end.

(** [df.iterrows()] without the index: the rows in order. *)
Definition rows (df : DataFrame) : list CountryStat :=
  zip_rows (Country df) (Isotope_Production df) (Medical_Procedures df)
           (CO2_Savings df).

(** [pd.DataFrame({...})] on a dict of four columns: columns of different
    lengths make pandas raise [ValueError] (here [None]). *)
Definition pd_DataFrame (c : list string) (p : list Z) (m : list Q) (s : list Z)
  : option DataFrame :=
  if (length c =? length p)%nat && (length p =? length m)%nat &&
     (length m =? length s)%nat
  then Some {| Country := c;
               Isotope_Production := p;
               Medical_Procedures := m;
               CO2_Savings := s |}
  else None.

(** ** The quiz questions *)

Record QuizQuestion := mkQuizQuestion {
  question : string;
  options : list string;
  answer : Z
}.

Definition quiz_questions : list QuizQuestion :=
  [ {| question := "What percentage of global medical isotopes are produced in research reactors?";
       options := ["25%"; "40%"; "60%"; "75%"];
       answer := 1 |};
    {| question := "Which sector uses the majority of industrial isotopes?";
       options := ["Agriculture"; "Material Testing"; "Sterilization"; "Oil Exploration"];
       answer := 1 |};
    {| question := "What's the projected CAGR for the isotopes market (2023-2030)?";
       options := ["3.2%"; "5.0%"; "6.8%"; "8.5%"];
       answer := 2 |} ].

(** ** What a script run draws *)

(** The figures handed to [st.plotly_chart], with the data they are built
    from. Styling arguments (colour scales, heights, projections) carry no
    logic and are left out. *)
Inductive Figure :=
| choropleth (data : DataFrame) (locations color : string)
| bar (data : list (string * Z)) (x y : string)
| scatterpolar (traces : list (string * list Z)) (theta : list string)
| pie (data : list (string * Z)) (names values : string)
| line (data : list (Z * Q)) (x y : string).

(** The calls into Streamlit that put something on the page, in call order.
    Layout containers ([st.columns], [st.tabs]) are recorded as a call; what
    is drawn inside them follows in order. A [markdown] element carries the
    first line of its text. *)
Inductive Element :=
| sidebar_header (body : string)
| sidebar_radio (label : string) (opts : list string)
| sidebar_divider
| sidebar_markdown (body : string)
| sidebar_caption (body : string)
| title (body : string)
| subheader (body : string)
| caption (body : string)
| markdown (body : string)
| metric (label value : string) (delta : option string)
| columns (n : nat)
| tabs (labels : list string)
| selectbox (label : string) (opts : list string)
| plotly_chart (fig : Figure)
| dataframe (cols : list string)
| image (path caption : string)
| button (col : option nat) (label key : string)
| success (body : string)
| error (body : string)
| divider.

(** ** The script monad *)

(** Exceptions that end a script run. [RerunException] is what
    [st.experimental_rerun()] raises; [ImageError] stands for whatever
    [st.image] raises when it cannot produce the image. *)
Inductive exn :=
| RerunException
| AttributeError (name : string)
| IndexError
| ValueError
| ImageError (path : string).

Inductive result (A : Type) :=
| Ok (a : A)
| Raise (e : exn).
Arguments Ok {A} a.
Arguments Raise {A} e.

(** What the interaction that triggers the run supplies: the value of the
    sidebar radio, the value of the sector select box, which buttons (by key)
    report a click, and whether [st.image] succeeds on a path. The last is
    decided by Streamlit and the file system, not by the script. *)
Record Inputs := mkInputs {
  radio_value : string;
  selectbox_value : string;
  button_value : string → bool;
  image_loads : string → bool
}.

(** [st.session_state] (a dictionary that outlives the run) and the page.
    The dictionary holds the entries the script reads and writes by name.
    The entries Streamlit itself keeps in [st.session_state] under the [key]
    of a widget ([option_0] to [option_3] for the option buttons) are no part
    of it. *)
Record World := mkWorld {
  session_state : gmap string Z;
  page : list Element
}.

Definition Script (A : Type) : Type := Inputs → World → result A * World.

Global Instance Script_ret : MRet Script := λ A a _ w, (Ok a, w).

Global Instance Script_bind : MBind Script := λ A B k m inp w,
  match m inp w with
  | (Ok a, w') => k a inp w'
  | (Raise e, w') => (Raise e, w')
  end.

Definition raise {A : Type} (e : exn) : Script A := λ _ w, (Raise e, w).

Definition ask : Script Inputs := λ inp w, (Ok inp, w).

(** Append an element to the page. *)
Definition draw (e : Element) : Script unit :=
  λ _ w, (Ok tt, {| session_state := session_state w; page := page w ++ [e] |}).

(** ['k' in st.session_state] *)
Definition has_key (k : string) : Script bool :=
  λ _ w, (Ok (bool_decide (is_Some (session_state w !! k))), w).

(** [st.session_state.k]: reading a missing attribute raises. *)
Definition get_attr (k : string) : Script Z :=
  λ _ w, match session_state w !! k with
         | Some v => (Ok v, w)
         | None => (Raise (AttributeError k), w)
         end.

(** [st.session_state.k = v] *)
Definition set_attr (k : string) (v : Z) : Script unit :=
  λ _ w, (Ok tt, {| session_state := <[k := v]> (session_state w);
                    page := page w |}).

(** [st.session_state.k += d] *)
Definition incr_attr (k : string) (d : Z) : Script unit :=
  v ← get_attr k; set_attr k (v + d).

(** ** The data provider: [load_data] *)

(** [load_data()], as the Python function it is: a computation that is handed
    the interaction and the world like any other part of the script. Its body
    builds four lists and the frame; [pd.DataFrame] is the only call that can
    raise. *)
Definition load_data (_ : unit) : Script DataFrame :=
  let countries := ["Canada"; "Russia"; "USA"; "Netherlands"; "South Africa";
                    "China"; "Japan"; "India"] in
  let production := [38; 25; 15; 10; 8; 5; 3; 2] in
  let medical_use := [4.2; 3.1; 4.0; 0.8; 0.5; 2.5; 1.8; 1.2]%Q in
  let co2_savings := [850; 620; 550; 180; 120; 420; 150; 200] in
  match pd_DataFrame countries production medical_use co2_savings with
  | Some df => mret df
  | None => raise ValueError
  end.

(** [getCountryStats] of the specification: the rows of [load_data()]. *)
Definition getCountryStats (u : unit) : Script (list CountryStat) :=
  df ← load_data u; mret (rows df).

(** ** Streamlit widgets *)

Definition st_sidebar_radio (label : string) (opts : list string) : Script string :=
  draw (sidebar_radio label opts) ;;
  inp ← ask; mret (radio_value inp).

Definition st_selectbox (label : string) (opts : list string) : Script string :=
  draw (selectbox label opts) ;;
  inp ← ask; mret (selectbox_value inp).

(** [st.button(label, key=key)] and [cols[c].button(label, key=key)]: the
    button is drawn and reports whether it was the one clicked. A button
    without [key] is identified by its label. The entry Streamlit keeps for
    a keyed button in [st.session_state] is not modelled: the script never
    reads it, and the statements about the quiz are about the two counters. *)
Definition st_button (col : option nat) (label key : string) : Script bool :=
  draw (button col label key) ;;
  inp ← ask; mret (button_value inp key).

Definition st_image (path cap : string) : Script unit :=
  inp ← ask;
  if image_loads inp path then draw (image path cap)
  else raise (ImageError path).

Definition st_experimental_rerun {A : Type} : Script A := raise RerunException.

(** ** The panels *)

(** [df.sort_values(col, ascending=False)] on the production column, as a
    stable sort: rows of equal share keep their order in the frame. (With
    its default [kind] pandas leaves the order of such rows open; the
    statements about the sorted rows below are for frames without ties.) *)
Fixpoint insert_desc (r : CountryStat) (l : list CountryStat) : list CountryStat :=
  match l with
  | [] => [r]
  | r' :: l' =>
      if productionShare r <? productionShare r' then r' :: insert_desc r l'
      else r :: l
  end.

Definition sort_values_desc (l : list CountryStat) : list CountryStat :=
  foldr insert_desc [] l.

Definition production_pairs (l : list CountryStat) : list (string * Z) :=
  (λ r, (country r, productionShare r)) <$> l.

Definition global_dashboard (df : DataFrame) : Script unit :=
  draw (title "⚛️ Global Isotope Economics Dashboard") ;;
  draw (subheader "Non-Energy Applications of Nuclear Technologies") ;;
  draw (columns 3) ;;
  draw (metric "Global Isotope Market" "$4.8 Billion" (Some "6.8% CAGR")) ;;
  draw (metric "Medical Procedures" "40M/year" (Some "80% of isotope use")) ;;
  draw (metric "CO₂ Savings" "2.5M tons/year" (Some "Equivalent to 550K cars")) ;;
  draw (subheader "Global Isotope Production") ;;
  draw (plotly_chart (choropleth df "Country" "Isotope Production (%)")) ;;
  draw (subheader "Top Producing Countries") ;;
  draw (plotly_chart
          (bar (production_pairs (take 5 (sort_values_desc (rows df))))
               "Country" "Isotope Production (%)")).

Definition isotope_production : Script unit :=
  draw (title "🧪 Isotope Production Methods") ;;
  draw (columns 2) ;;
  draw (subheader "Production Methods") ;;
  draw (markdown "- **Research Reactors**:") ;;
  draw (subheader "Key Facilities") ;;
  draw (markdown "- **Canada**: NRU Reactor (Chalk River)") ;;
  draw (subheader "Production Economics") ;;
  let production_data :=
    [("Research Reactors", [9; 8; 9]);
     ("NPP By-products", [7; 9; 7]);
     ("Cyclotrons", [4; 6; 5])] in
  draw (plotly_chart
          (scatterpolar production_data
             ["Cost Efficiency"; "Scalability"; "Isotope Range"])).

Definition medical_applications : Script unit :=
  draw (subheader "Medical Applications") ;;
  draw (columns 2) ;;
  draw (markdown "**Common Isotopes:**") ;;
  let medical_data :=
    [("Diagnostics", 65); ("Cancer Therapy", 25); ("Sterilization", 10)] in
  draw (plotly_chart (pie medical_data "Application" "Market Share (%)")).

Definition industrial_applications : Script unit :=
  draw (subheader "Industrial Applications") ;;
  draw (markdown "**Key Uses:**") ;;
  st_image "industrial_apps.jpg" "Industrial radiography using isotopes".

Definition sector_applications : Script unit :=
  draw (title "📊 Sector Applications Analysis") ;;
  sectors ← st_selectbox "Select Sector"
              ["Medical"; "Industrial"; "Agricultural"; "Space Technology"];
  if bool_decide (sectors = "Medical") then medical_applications
  else if bool_decide (sectors = "Industrial") then industrial_applications
  else mret tt.

Definition economic_analysis : Script unit :=
  draw (title "💹 Economic Analysis") ;;
  draw (tabs ["Market Trends"; "Cost Comparison"; "Growth Projections"]) ;;
  draw (subheader "Global Isotope Market Trends") ;;
  let years := seqZ 2015 (2031 - 2015) in
  let market_size :=
    [2.1; 2.3; 2.5; 2.7; 2.9; 3.2; 3.5; 3.8; 4.2; 4.5; 4.9; 5.3; 5.7; 6.1;
     6.6; 7.1]%Q in
  draw (plotly_chart (line (zip years market_size) "Year" "Market Size ($B)")) ;;
  draw (subheader "Production Cost Comparison") ;;
  draw (dataframe ["Method"; "Startup Cost ($M)"; "Production Cost ($/unit)";
                   "Output Capacity"]) ;;
  let cost_data :=
    [("Research Reactor", 50); ("NPP By-product", 30); ("Cyclotron", 150)] in
  draw (plotly_chart (bar cost_data "Method" "Production Cost ($/unit)")).

(** The [for i, option in enumerate(question["options"])] loop of the quiz
    panel, from index [i] on. A clicked button ends the run through
    [st.experimental_rerun()], so the remaining buttons are not reached. *)
Fixpoint option_buttons (q : QuizQuestion) (i : nat) (opts : list string)
  : Script unit :=
  match opts with
  | [] => mret tt
  | option :: rest =>
      b ← st_button (Some (i mod 2)%nat) option ("option_" +:+ str_of_nat i);
      (if b : bool then
         (if bool_decide (Z.of_nat i = answer q) then
            draw (success "Correct!") ;;
            incr_attr "quiz_score" 1
          else
            draw (error "Incorrect!")) ;;
         incr_attr "current_question" 1 ;;
         st_experimental_rerun
       else mret tt) ;;
      option_buttons q (S i) rest
  end.

Definition len_quiz_questions : Z := Z.of_nat (length quiz_questions).

Definition interactive_quiz : Script unit :=
  draw (title "📝 Nuclear Isotopes Quiz") ;;
  draw (caption "Test your knowledge of isotope economics and applications") ;;
  cq ← get_attr "current_question";
  if cq <? len_quiz_questions then
    cq ← get_attr "current_question";
    q ← (match py_getitem quiz_questions cq with
         | Some q => mret q
         | None => raise IndexError
         end);
    cq ← get_attr "current_question";
    draw (subheader ("Question " +:+ str_of_int (cq + 1) +:+ "/" +:+
                     str_of_int len_quiz_questions)) ;;
    draw (markdown ("**" +:+ question q +:+ "**")) ;;
    draw (columns 2) ;;
    option_buttons q 0 (options q)
  else
    draw (subheader "Quiz Completed!") ;;
    score ← get_attr "quiz_score";
    draw (metric "Your Score"
            (str_of_int score +:+ "/" +:+ str_of_int len_quiz_questions) None) ;;
    b ← st_button None "Restart Quiz" "Restart Quiz";
    if b : bool then
      set_attr "quiz_score" 0 ;;
      set_attr "current_question" 0 ;;
      st_experimental_rerun
    else mret tt.

Definition references : Script unit :=
  draw (title "📚 References & Data Sources") ;;
  draw (markdown "### Verified Information Sources:") ;;
  draw divider ;;
  draw (markdown "### Application Development:").

(** ** The view router and [main] *)

Inductive Panel :=
| GlobalDashboard
| IsotopeProduction
| SectorApplications
| EconomicAnalysis
| InteractiveQuiz
| References.

(** The options of the sidebar radio. *)
Definition navigation : list string :=
  ["Global Dashboard"; "Isotope Production"; "Sector Applications";
   "Economic Analysis"; "Interactive Quiz"; "References"].

(** The [if app_mode == ... elif ... else] chain of [main]: which branch is
    taken. The last branch is the [else]. *)
Definition selectPanel (app_mode : string) : Panel :=
  if bool_decide (app_mode = "Global Dashboard") then GlobalDashboard
  else if bool_decide (app_mode = "Isotope Production") then IsotopeProduction
  else if bool_decide (app_mode = "Sector Applications") then SectorApplications
  else if bool_decide (app_mode = "Economic Analysis") then EconomicAnalysis
  else if bool_decide (app_mode = "Interactive Quiz") then InteractiveQuiz
  else References.

(** The body of each branch. *)
Definition render (p : Panel) (df : DataFrame) : Script unit :=
  match p with
  | GlobalDashboard => global_dashboard df
  | IsotopeProduction => isotope_production
  | SectorApplications => sector_applications
  | EconomicAnalysis => economic_analysis
  | InteractiveQuiz => interactive_quiz
  | References => references
  end.

Definition sidebar : Script string :=
  draw (sidebar_header "Nuclear Isotopes Economics") ;;
  app_mode ← st_sidebar_radio "Navigation" navigation;
  draw sidebar_divider ;;
  draw (sidebar_markdown "**Data Sources:**") ;;
  draw (sidebar_caption "IAEA Databases • World Nuclear Association • OECD/NEA Reports") ;;
  draw (sidebar_caption "Developed by Team [Matrix]") ;;
  mret app_mode.

Definition main : Script unit :=
  df ← load_data tt;
  app_mode ← sidebar;
  render (selectPanel app_mode) df.

(** The module body: session-state initialisation, then [main()]. *)
Definition init_session_state : Script unit :=
  b ← has_key "quiz_score";
  (if negb b then set_attr "quiz_score" 0 else mret tt) ;;
  b ← has_key "current_question";
  (if negb b then set_attr "current_question" 0 else mret tt).

Definition script : Script unit :=
  init_session_state ;;
  main.

(** One run of the script on a session dictionary: how it ends, and the
    session dictionary and page it leaves. *)
Definition run (inp : Inputs) (σ : gmap string Z) : result unit * World :=
  script inp {| session_state := σ; page := [] |}.

Definition outcome (inp : Inputs) (σ : gmap string Z) : result unit :=
  (run inp σ).1.

Definition next_session (inp : Inputs) (σ : gmap string Z) : gmap string Z :=
  session_state (run inp σ).2.

(** ** The interactions of the quiz *)

(** The user is on the quiz panel and the buttons report [clicked]. *)
Definition quiz_inputs (clicked : string → bool) : Inputs :=
  {| radio_value := "Interactive Quiz";
     selectbox_value := "Medical";
     button_value := clicked;
     image_loads := λ _, true |}.

(** Submit answer: the user clicks the button of option [selectedOption]. *)
Definition submitAnswer (selectedOption : nat) : Inputs :=
  quiz_inputs (λ key, bool_decide (key = "option_" +:+ str_of_nat selectedOption)).

(** Restart: the user clicks the Restart Quiz button. *)
Definition restart : Inputs :=
  quiz_inputs (λ key, bool_decide (key = "Restart Quiz")).

(** The session dictionary of a new session after the initialisation at the
    top of the script. *)
Definition initial_session : gmap string Z :=
  session_state (init_session_state (quiz_inputs (λ _, false))
                   {| session_state := ∅; page := [] |}).2.

(** The session dictionary after a sequence of runs. *)
Definition run_all (inps : list Inputs) (σ : gmap string Z) : gmap string Z :=
  foldl (λ σ inp, next_session inp σ) σ inps.

(** The quiz counters as the specification names them. *)
Record QuizState := mkQuizState {
  score : Z;
  currentIndex : Z
}.

Definition quiz_state (σ : gmap string Z) : option QuizState :=
  s ← σ !! "quiz_score";
  i ← σ !! "current_question";
  Some {| score := s; currentIndex := i |}.

(** The first option button, among those with index in [[i, i + n)], that
    reports a click. *)
Fixpoint first_clicked (inp : Inputs) (i n : nat) : option nat :=
  match n with
  | O => None
  | S n' =>
      if button_value inp ("option_" +:+ str_of_nat i) then Some i
      else first_clicked inp (S i) n'
  end.

(** A computation that leaves [st.session_state] as it found it, however it
    ends. *)
Definition keeps_session {A : Type} (m : Script A) : Prop :=
  ∀ inp w, session_state (m inp w).2 = session_state w.

(** The quiz counters are within their ranges. *)
Definition quiz_invariant (σ : gmap string Z) : Prop :=
  ∃ s i, quiz_state σ = Some {| score := s; currentIndex := i |} ∧
         0 ≤ s ∧ 0 ≤ i ≤ len_quiz_questions.

(** The session dictionaries a session can be in: the initial one, and those
    left by a run of the script on any interaction. *)
Inductive reachable : gmap string Z → Prop :=
| reachable_initial : reachable initial_session
| reachable_run inp σ : reachable σ → reachable (next_session inp σ).

(** The states of the quiz: [Asking i] while question [i] is open (the [if]
    branch of the quiz panel), [Finished] when the index has reached the
    number of questions (its [else] branch). *)
Definition Asking (i : Z) (σ : gmap string Z) : Prop :=
  0 ≤ i < len_quiz_questions ∧
  ∃ s, quiz_state σ = Some {| score := s; currentIndex := i |}.

Definition Finished (σ : gmap string Z) : Prop :=
  ∃ s, quiz_state σ = Some {| score := s; currentIndex := len_quiz_questions |}.

(** The user is on the Sector Applications panel with the Industrial sector
    selected; [loads] tells whether [st.image] succeeds. *)
Definition industrial_inputs (loads : bool) : Inputs :=
  {| radio_value := "Sector Applications";
     selectbox_value := "Industrial";
     button_value := λ _, false;
     image_loads := λ _, loads |}.

(** The text of a title among the elements of a page. *)
Definition title_of (e : Element) : option string :=
  match e with
  | title body => Some body
  | _ => None
  end.

(** The title each branch of [main] opens with ([st.title] is the first
    call of every branch). *)
Definition panel_title (p : Panel) : string :=
  match p with
  | GlobalDashboard => "⚛️ Global Isotope Economics Dashboard"
  | IsotopeProduction => "🧪 Isotope Production Methods"
  | SectorApplications => "📊 Sector Applications Analysis"
  | EconomicAnalysis => "💹 Economic Analysis"
  | InteractiveQuiz => "📝 Nuclear Isotopes Quiz"
  | References => "📚 References & Data Sources"
  end.

(** A computation that draws no title, however it ends. *)
Definition draws_no_title {A : Type} (m : Script A) : Prop :=
  ∀ inp w, omap title_of (page (m inp w).2) = omap title_of (page w).

(** The menu label of each branch of [main]. *)
Definition panel_label (p : Panel) : string :=
  match p with
  | GlobalDashboard => "Global Dashboard"
  | IsotopeProduction => "Isotope Production"
  | SectorApplications => "Sector Applications"
  | EconomicAnalysis => "Economic Analysis"
  | InteractiveQuiz => "Interactive Quiz"
  | References => "References"
  end.

(** The session dictionary after an answer: the score goes up by one when
    option [j] is the answer of [q], and the question index goes up by one. *)
Definition answered (q : QuizQuestion) (j : nat) (s i : Z) (σ : gmap string Z)
  : gmap string Z :=
  <["current_question" := i + 1]>
    (if bool_decide (Z.of_nat j = answer q) then <["quiz_score" := s + 1]> σ
     else σ).

(** The session dictionary after the initialisation at the top of the script,
    for a session that starts with dictionary [σ]. *)
Definition initialised (σ : gmap string Z) : gmap string Z :=
  session_state (init_session_state (quiz_inputs (λ _, false))
                   {| session_state := σ; page := [] |}).2.

(** The number of positions at which the selected option is the [answer] of
    the question at that position. *)
Fixpoint correct_answers (qs : list QuizQuestion) (sels : list nat) : Z :=
  match qs, sels with
  | q :: qs', j :: sels' =>
      (if bool_decide (Z.of_nat j = answer q) then 1 else 0) +
      correct_answers qs' sels'
  | _, _ => 0
  end.

(** The key of a button among the elements of a page. *)
Definition button_key (e : Element) : option string :=
  match e with
  | button _ _ key => Some key
  | _ => None
  end.

(** The buttons the loop of the quiz panel draws for the options from index
    [i] on when it runs to its end. *)
Fixpoint option_button_elements (i : nat) (opts : list string) : list Element :=
  match opts with
  | [] => []
  | option :: rest =>
      button (Some (i mod 2)%nat) option ("option_" +:+ str_of_nat i)
        :: option_button_elements (S i) rest
  end.

(** Both counters are present, the score is between 0 and the question index,
    and the question index is at most the number of questions. *)
Definition score_within_index (σ : gmap string Z) : Prop :=
  ∃ s i, quiz_state σ = Some {| score := s; currentIndex := i |} ∧
         0 ≤ s ≤ i ∧ i ≤ len_quiz_questions.

(** * Properties *)

(** ** Equations of the monad *)

Lemma bind_run {A B : Type} (m : Script A) (k : A → Script B) inp w :
  (m ≫= k) inp w =
    match m inp w with
    | (Ok a, w') => k a inp w'
    | (Raise e, w') => (Raise e, w')
    end.
Proof. reflexivity. Qed.

Lemma bind_ok {A B : Type} (m : Script A) (k : A → Script B) inp w a w' :
  m inp w = (Ok a, w') → (m ≫= k) inp w = k a inp w'.
Proof. intros H. rewrite bind_run, H. reflexivity. Qed.

Lemma bind_raise {A B : Type} (m : Script A) (k : A → Script B) inp w e w' :
  m inp w = (Raise e, w') → (m ≫= k) inp w = (Raise e, w').
Proof. intros H. rewrite bind_run, H. reflexivity. Qed.

Lemma mret_run {A : Type} (a : A) inp w :
  (mret a : Script A) inp w = (Ok a, w).
Proof. reflexivity. Qed.

Lemma draw_run e inp w :
  draw e inp w = (Ok tt, {| session_state := session_state w; page := page w ++ [e] |}).
Proof. reflexivity. Qed.

Lemma get_attr_run k v inp w :
  session_state w !! k = Some v → get_attr k inp w = (Ok v, w).
Proof. intros H. unfold get_attr. rewrite H. reflexivity. Qed.

Lemma has_key_run k v inp w :
  session_state w !! k = Some v → has_key k inp w = (Ok true, w).
Proof.
  intros H. unfold has_key. rewrite H.
  rewrite bool_decide_eq_true_2 by eauto. reflexivity.
Qed.

Lemma incr_attr_run k v d inp w :
  session_state w !! k = Some v →
  incr_attr k d inp w =
    (Ok tt, {| session_state := <[k := v + d]> (session_state w); page := page w |}).
Proof.
  intros H. unfold incr_attr.
  rewrite (bind_ok _ _ _ _ v w) by (by apply get_attr_run).
  reflexivity.
Qed.

Lemma quiz_state_lookups σ s i :
  quiz_state σ = Some {| score := s; currentIndex := i |} ↔
  σ !! "quiz_score" = Some s ∧ σ !! "current_question" = Some i.
Proof.
  unfold quiz_state. split.
  - destruct (σ !! "quiz_score") as [s'|]; simpl; [|done].
    destruct (σ !! "current_question") as [i'|]; simpl; [|done].
    by intros [= -> ->].
  - by intros [-> ->].
Qed.

(** ** Computations that do not touch the session dictionary *)

Create HintDb keeps discriminated.

Lemma keeps_mret {A : Type} (a : A) : keeps_session (mret a).
Proof. by intros inp w. Qed.

Lemma keeps_raise {A : Type} (e : exn) : keeps_session (@raise A e).
Proof. by intros inp w. Qed.

Lemma keeps_ask : keeps_session ask.
Proof. by intros inp w. Qed.

Lemma keeps_draw (e : Element) : keeps_session (draw e).
Proof. by intros inp w. Qed.

Lemma keeps_bind {A B : Type} (m : Script A) (k : A → Script B) :
  keeps_session m → (∀ a, keeps_session (k a)) → keeps_session (m ≫= k).
Proof.
  intros Hm Hk inp w. rewrite bind_run.
  specialize (Hm inp w). destruct (m inp w) as [[a|e] w']; simpl in *.
  - rewrite Hk. done.
  - done.
Qed.

Lemma keeps_if {A : Type} (b : bool) (m1 m2 : Script A) :
  keeps_session m1 → keeps_session m2 → keeps_session (if b then m1 else m2).
Proof. by destruct b. Qed.

#[local] Hint Resolve keeps_mret keeps_raise keeps_ask keeps_draw keeps_if : keeps.
#[local] Hint Extern 2 (keeps_session (_ ≫= _)) =>
  apply keeps_bind; [| intros ?] : keeps.

Lemma keeps_st_sidebar_radio label opts : keeps_session (st_sidebar_radio label opts).
Proof. unfold st_sidebar_radio. auto 10 with keeps. Qed.

Lemma keeps_st_selectbox label opts : keeps_session (st_selectbox label opts).
Proof. unfold st_selectbox. auto 10 with keeps. Qed.

Lemma keeps_st_button col label key : keeps_session (st_button col label key).
Proof. unfold st_button. auto 10 with keeps. Qed.

Lemma keeps_st_image path cap : keeps_session (st_image path cap).
Proof.
  unfold st_image. apply keeps_bind; [apply keeps_ask | intros inp].
  auto with keeps.
Qed.

#[local] Hint Resolve keeps_st_sidebar_radio keeps_st_selectbox keeps_st_button
  keeps_st_image : keeps.

Lemma keeps_sidebar : keeps_session sidebar.
Proof. unfold sidebar. auto 20 with keeps. Qed.

Lemma keeps_global_dashboard df : keeps_session (global_dashboard df).
Proof. unfold global_dashboard. auto 30 with keeps. Qed.

Lemma keeps_isotope_production : keeps_session isotope_production.
Proof. unfold isotope_production. cbv zeta. auto 30 with keeps. Qed.

Lemma keeps_sector_applications : keeps_session sector_applications.
Proof.
  unfold sector_applications, medical_applications, industrial_applications.
  cbv zeta. auto 30 with keeps.
Qed.

Lemma keeps_economic_analysis : keeps_session economic_analysis.
Proof. unfold economic_analysis. cbv zeta. auto 30 with keeps. Qed.

Lemma keeps_references : keeps_session references.
Proof. unfold references. auto 30 with keeps. Qed.

(** Every branch of [main] but the quiz leaves the session dictionary alone. *)
Lemma keeps_render p df : p ≠ InteractiveQuiz → keeps_session (render p df).
Proof.
  destruct p; simpl; intros Hp;
    auto using keeps_global_dashboard, keeps_isotope_production,
      keeps_sector_applications, keeps_economic_analysis, keeps_references.
  done.
Qed.

(** ** The router *)

Lemma navigation_labels :
  navigation = panel_label <$> [GlobalDashboard; IsotopeProduction;
                                SectorApplications; EconomicAnalysis;
                                InteractiveQuiz; References].
Proof. reflexivity. Qed.

Lemma selectPanel_label p : selectPanel (panel_label p) = p.
Proof. destruct p; unfold selectPanel; repeat case_bool_decide; done. Qed.

Lemma selectPanel_quiz app_mode :
  selectPanel app_mode = InteractiveQuiz ↔ app_mode = "Interactive Quiz".
Proof.
  split.
  - unfold selectPanel. repeat case_bool_decide; done.
  - intros ->. apply (selectPanel_label InteractiveQuiz).
Qed.

Lemma sidebar_result inp w : (sidebar inp w).1 = Ok (radio_value inp).
Proof. reflexivity. Qed.

Lemma load_data_ok u inp w :
  ∃ df, load_data u inp w = (Ok df, w) ∧ length (rows df) = 8%nat.
Proof. eexists. split; reflexivity. Qed.

Lemma main_run inp w :
  ∃ df, load_data tt inp w = (Ok df, w) ∧
        main inp w =
          render (selectPanel (radio_value inp)) df inp (sidebar inp w).2.
Proof. eexists. split; reflexivity. Qed.

(** ** Session initialisation *)

Lemma init_session_state_present inp w s i :
  session_state w !! "quiz_score" = Some s →
  session_state w !! "current_question" = Some i →
  init_session_state inp w = (Ok tt, w).
Proof.
  intros Hs Hi. unfold init_session_state.
  rewrite (bind_ok _ _ _ _ true w) by (by eapply has_key_run).
  simpl negb. cbv iota.
  rewrite (bind_ok _ _ _ _ tt w) by reflexivity.
  rewrite (bind_ok _ _ _ _ true w) by (by eapply has_key_run).
  reflexivity.
Qed.

Lemma initial_session_eq :
  initial_session = <["current_question" := 0]> (<["quiz_score" := 0]> ∅).
Proof. reflexivity. Qed.

Lemma initial_quiz_state :
  quiz_state initial_session = Some {| score := 0; currentIndex := 0 |}.
Proof. reflexivity. Qed.

(** A run on an initialised session is [main] on that session. *)
Lemma run_initialised inp σ st :
  quiz_state σ = Some st →
  run inp σ = main inp {| session_state := σ; page := [] |}.
Proof.
  destruct st as [s i]. intros [Hs Hi]%quiz_state_lookups.
  unfold run, script.
  by rewrite (bind_ok _ _ _ _ tt {| session_state := σ; page := [] |})
    by (by eapply init_session_state_present).
Qed.

(** ** The quiz panel *)

Lemma st_button_run col label key inp w :
  st_button col label key inp w =
    (Ok (button_value inp key),
     {| session_state := session_state w;
        page := page w ++ [button col label key] |}).
Proof. reflexivity. Qed.

(** The loop over the option buttons: without a click it only draws; with a
    click it records the answer of the first clicked button and asks for a
    rerun. *)
Lemma option_buttons_run q opts : ∀ i inp w s c,
  session_state w !! "quiz_score" = Some s →
  session_state w !! "current_question" = Some c →
  match first_clicked inp i (length opts) with
  | None =>
      (option_buttons q i opts inp w).1 = Ok tt ∧
      session_state (option_buttons q i opts inp w).2 = session_state w
  | Some j =>
      (option_buttons q i opts inp w).1 = Raise RerunException ∧
      session_state (option_buttons q i opts inp w).2 =
        answered q j s c (session_state w)
  end.
Proof.
  induction opts as [|option rest IH]; intros i inp w s c Hs Hc.
  - simpl. done.
  - cbn [length first_clicked option_buttons].
    rewrite bind_run, st_button_run.
    destruct (button_value inp ("option_" +:+ str_of_nat i)) eqn:Hb.
    + cbv beta iota. unfold answered. case_bool_decide as Hans.
      * rewrite !bind_run, draw_run. cbv beta iota.
        erewrite incr_attr_run by (simpl; exact Hs). cbv beta iota.
        rewrite bind_run.
        erewrite incr_attr_run
          by (simpl; rewrite lookup_insert_ne by done; exact Hc).
        done.
      * rewrite !bind_run, draw_run. cbv beta iota.
        rewrite bind_run.
        erewrite incr_attr_run by (simpl; exact Hc).
        done.
    + rewrite bind_run.
      specialize (IH (S i) inp
                    {| session_state := session_state w;
                       page := page w ++ [button (Some (i mod 2)%nat) option
                                            ("option_" +:+ str_of_nat i)] |}
                    s c Hs Hc).
      exact IH.
Qed.

(** Run the draws at the head of a computation. *)
Ltac run_draws :=
  repeat (progress (rewrite ?bind_run, ?draw_run, ?st_button_run; cbv beta iota)).

(** Run a read of the session dictionary at the head of a computation. *)
Ltac run_get H :=
  erewrite get_attr_run by (simpl; exact H); cbv beta iota.

(** While a question is open the panel draws it and runs the button loop. *)
Lemma interactive_quiz_asking inp w s i q :
  session_state w !! "quiz_score" = Some s →
  session_state w !! "current_question" = Some i →
  i < len_quiz_questions →
  py_getitem quiz_questions i = Some q →
  ∃ pg, interactive_quiz inp w =
          option_buttons q 0 (options q) inp
            {| session_state := session_state w; page := pg |}.
Proof.
  intros Hs Hi Hlt Hq. unfold interactive_quiz.
  run_draws. run_get Hi.
  apply Z.ltb_lt in Hlt. rewrite Hlt.
  run_draws. run_get Hi.
  run_draws. rewrite Hq, mret_run. cbv beta iota.
  run_draws. run_get Hi.
  run_draws.
  eexists. reflexivity.
Qed.

(** Once all questions are answered the panel shows the score and the restart
    button; a click on it resets both counters and asks for a rerun. *)
Lemma interactive_quiz_finished inp w s i :
  session_state w !! "quiz_score" = Some s →
  session_state w !! "current_question" = Some i →
  len_quiz_questions ≤ i →
  (interactive_quiz inp w).1 =
    (if button_value inp "Restart Quiz" then Raise RerunException else Ok tt) ∧
  session_state (interactive_quiz inp w).2 =
    (if button_value inp "Restart Quiz"
     then <["current_question" := 0]> (<["quiz_score" := 0]> (session_state w))
     else session_state w).
Proof.
  intros Hs Hi Hge. unfold interactive_quiz.
  run_draws. run_get Hi.
  apply Z.ltb_ge in Hge. rewrite Hge.
  run_draws. run_get Hs.
  run_draws.
  destruct (button_value inp "Restart Quiz"); done.
Qed.

(** A run of the whole script on the quiz panel, with a question open. *)
Lemma run_quiz_asking inp σ s i q :
  radio_value inp = "Interactive Quiz" →
  quiz_state σ = Some {| score := s; currentIndex := i |} →
  i < len_quiz_questions →
  py_getitem quiz_questions i = Some q →
  match first_clicked inp 0 (length (options q)) with
  | None => outcome inp σ = Ok tt ∧ next_session inp σ = σ
  | Some j =>
      outcome inp σ = Raise RerunException ∧
      next_session inp σ = answered q j s i σ
  end.
Proof.
  intros Hr Hst Hlt Hq. unfold outcome, next_session.
  rewrite (run_initialised _ _ _ Hst).
  destruct (main_run inp {| session_state := σ; page := [] |}) as (df & _ & ->).
  rewrite Hr, (proj2 (selectPanel_quiz _) eq_refl). cbn [render].
  apply quiz_state_lookups in Hst as [Hs Hi].
  destruct (interactive_quiz_asking inp
              (sidebar inp {| session_state := σ; page := [] |}).2 s i q)
    as [pg ->]; [done..|].
  exact (option_buttons_run q (options q) 0 inp
           {| session_state := σ; page := pg |} s i Hs Hi).
Qed.

(** A run of the whole script on the quiz panel, with the quiz completed. *)
Lemma run_quiz_finished inp σ s i :
  radio_value inp = "Interactive Quiz" →
  quiz_state σ = Some {| score := s; currentIndex := i |} →
  len_quiz_questions ≤ i →
  outcome inp σ =
    (if button_value inp "Restart Quiz" then Raise RerunException else Ok tt) ∧
  next_session inp σ =
    (if button_value inp "Restart Quiz"
     then <["current_question" := 0]> (<["quiz_score" := 0]> σ)
     else σ).
Proof.
  intros Hr Hst Hge. unfold outcome, next_session.
  rewrite (run_initialised _ _ _ Hst).
  destruct (main_run inp {| session_state := σ; page := [] |}) as (df & _ & ->).
  rewrite Hr, (proj2 (selectPanel_quiz _) eq_refl). cbn [render].
  apply quiz_state_lookups in Hst as [Hs Hi].
  exact (interactive_quiz_finished inp
           (sidebar inp {| session_state := σ; page := [] |}).2 s i Hs Hi Hge).
Qed.

(** A run on any other panel leaves an initialised session as it was. *)
Lemma run_other_panel inp σ st :
  radio_value inp ≠ "Interactive Quiz" →
  quiz_state σ = Some st →
  next_session inp σ = σ.
Proof.
  intros Hr Hst. unfold next_session.
  rewrite (run_initialised _ _ _ Hst).
  destruct (main_run inp {| session_state := σ; page := [] |}) as (df & _ & ->).
  rewrite keeps_render by (by rewrite selectPanel_quiz).
  reflexivity.
Qed.

(** ** Submitting an answer *)

Lemma py_getitem_lookup {A : Type} (l : list A) (z : Z) :
  0 ≤ z < Z.of_nat (length l) → py_getitem l z = l !! Z.to_nat z.
Proof.
  intros [H0 H1]. unfold py_getitem.
  apply Z.leb_le in H0. apply Z.ltb_lt in H1. by rewrite H0, H1.
Qed.

Lemma open_question (i : Z) :
  0 ≤ i < len_quiz_questions →
  ∃ q, quiz_questions !! Z.to_nat i = Some q ∧
       py_getitem quiz_questions i = Some q ∧
       length (options q) = 4%nat.
Proof.
  intros Hi. rewrite py_getitem_lookup by exact Hi.
  unfold len_quiz_questions in Hi. simpl in Hi.
  assert (i = 0 ∨ i = 1 ∨ i = 2) as [-> | [-> | ->]] by lia;
    eexists; repeat split; reflexivity.
Qed.

Lemma first_clicked_submitAnswer (selectedOption : nat) :
  (selectedOption ≤ 3)%nat →
  first_clicked (submitAnswer selectedOption) 0 4 = Some selectedOption.
Proof.
  intros H.
  assert (selectedOption = 0 ∨ selectedOption = 1 ∨ selectedOption = 2 ∨
          selectedOption = 3)%nat as [-> | [-> | [-> | ->]]] by lia;
    reflexivity.
Qed.

Lemma quiz_state_answered q j s i σ :
  σ !! "quiz_score" = Some s →
  quiz_state (answered q j s i σ) =
    Some {| score := if bool_decide (Z.of_nat j = answer q) then s + 1 else s;
            currentIndex := i + 1 |}.
Proof.
  intros Hs. apply quiz_state_lookups. unfold answered.
  rewrite lookup_insert_eq, lookup_insert_ne by done.
  case_bool_decide; [rewrite lookup_insert_eq|]; done.
Qed.

(** A click on one of the four option buttons while question [i] is open. *)
Lemma submitAnswer_run σ s i q selectedOption :
  quiz_state σ = Some {| score := s; currentIndex := i |} →
  0 ≤ i < len_quiz_questions →
  quiz_questions !! Z.to_nat i = Some q →
  (selectedOption ≤ 3)%nat →
  outcome (submitAnswer selectedOption) σ = Raise RerunException ∧
  next_session (submitAnswer selectedOption) σ = answered q selectedOption s i σ ∧
  quiz_state (next_session (submitAnswer selectedOption) σ) =
    Some {| score := if bool_decide (Z.of_nat selectedOption = answer q)
                     then s + 1 else s;
            currentIndex := i + 1 |}.
Proof.
  intros Hst Hi Hq Hsel.
  destruct (open_question i Hi) as (q' & Hq' & Hget & Hlen).
  assert (q' = q) as -> by congruence.
  pose proof (run_quiz_asking (submitAnswer selectedOption) σ s i q
                eq_refl Hst (proj2 Hi) Hget) as Hrun.
  rewrite Hlen, first_clicked_submitAnswer in Hrun by exact Hsel.
  destruct Hrun as [Hout Hnext]. split; [exact Hout|]. split; [exact Hnext|].
  rewrite Hnext. apply quiz_state_answered.
  by apply quiz_state_lookups in Hst as [? ?].
Qed.

(** C1. In [Asking(i)] with [i] in [[0, 3)], submitting option
    [selectedOption] in [[0, 3]] sets [currentIndex] to [i + 1]; the score
    goes up by exactly 1 if and only if [selectedOption] is the [answer] of
    question [i], and is unchanged otherwise. *)
Theorem submit_answer_advances_and_scores
    (σ : gmap string Z) (s i : Z) (q : QuizQuestion) (selectedOption : nat) :
  quiz_state σ = Some {| score := s; currentIndex := i |} →
  0 ≤ i < 3 →
  quiz_questions !! Z.to_nat i = Some q →
  (selectedOption ≤ 3)%nat →
  ∃ s', quiz_state (next_session (submitAnswer selectedOption) σ) =
          Some {| score := s'; currentIndex := i + 1 |} ∧
        (s' = s + 1 ↔ Z.of_nat selectedOption = answer q) ∧
        (Z.of_nat selectedOption ≠ answer q → s' = s).
Proof.
  intros Hst Hi Hq Hsel.
  destruct (submitAnswer_run σ s i q selectedOption Hst Hi Hq Hsel)
    as (_ & _ & Hnext).
  eexists. split; [exact Hnext|].
  case_bool_decide; split; try done; lia.
Qed.

Lemma submit_answer_advances_and_scores_witness :
  ∃ s', quiz_state (next_session (submitAnswer 1) initial_session) =
          Some {| score := s'; currentIndex := 0 + 1 |} ∧
        (s' = 0 + 1 ↔ Z.of_nat 1 = 1) ∧
        (Z.of_nat 1 ≠ 1 → s' = 0).
Proof.
  apply (submit_answer_advances_and_scores initial_session 0 0
           {| question := "What percentage of global medical isotopes are produced in research reactors?";
              options := ["25%"; "40%"; "60%"; "75%"];
              answer := 1 |} 1).
  - reflexivity.
  - lia.
  - reflexivity.
  - lia.
Defined.

(** ** The invariant of the quiz counters *)

Lemma quiz_invariant_initial : quiz_invariant initial_session.
Proof.
  exists 0, 0. split; [reflexivity|].
  unfold len_quiz_questions. simpl. lia.
Qed.

Lemma quiz_invariant_answered q j s i σ :
  quiz_state σ = Some {| score := s; currentIndex := i |} →
  0 ≤ s → 0 ≤ i < len_quiz_questions →
  quiz_invariant (answered q j s i σ).
Proof.
  intros [Hs _]%quiz_state_lookups Hs0 Hi.
  eexists _, _. split; [by apply quiz_state_answered|].
  case_bool_decide; lia.
Qed.

(** Any run of the script, on any panel and with any buttons reporting a
    click, keeps the counters within their ranges. *)
Lemma run_preserves_quiz_invariant inp σ :
  quiz_invariant σ → quiz_invariant (next_session inp σ).
Proof.
  intros (s & i & Hst & Hs0 & Hi).
  destruct (decide (radio_value inp = "Interactive Quiz")) as [Hr|Hr].
  - destruct (decide (i < len_quiz_questions)) as [Hlt|Hge].
    + destruct (open_question i ltac:(lia)) as (q & _ & Hget & _).
      pose proof (run_quiz_asking inp σ s i q Hr Hst Hlt Hget) as Hrun.
      destruct (first_clicked inp 0 (length (options q))) as [j|];
        destruct Hrun as [_ ->].
      * apply quiz_invariant_answered; [done | lia | lia].
      * by exists s, i.
    + destruct (run_quiz_finished inp σ s i Hr Hst ltac:(lia)) as [_ ->].
      destruct (button_value inp "Restart Quiz").
      * exists 0, 0. split; [|lia].
        apply quiz_state_lookups.
        by rewrite lookup_insert_eq, lookup_insert_ne, lookup_insert_eq.
      * by exists s, i.
  - rewrite (run_other_panel inp σ _ Hr Hst). by exists s, i.
Qed.

(** C2. Every session state reachable from the initial state
    ([score = 0], [currentIndex = 0]) by runs of the script (answer
    submissions, restarts and any other interaction) has [score >= 0] and
    [currentIndex] in [[0, 3]]; the initial state satisfies the predicate
    and every run preserves it. *)
Theorem reachable_quiz_invariant :
  len_quiz_questions = 3 ∧
  quiz_invariant initial_session ∧
  (∀ inp σ, quiz_invariant σ → quiz_invariant (next_session inp σ)) ∧
  (∀ σ, reachable σ → quiz_invariant σ).
Proof.
  split; [reflexivity|].
  split; [exact quiz_invariant_initial|].
  split; [exact run_preserves_quiz_invariant|].
  induction 1 as [|inp σ _ IH].
  - exact quiz_invariant_initial.
  - by apply run_preserves_quiz_invariant.
Qed.

Lemma reachable_quiz_invariant_witness :
  quiz_invariant (next_session restart (next_session (submitAnswer 2) initial_session)).
Proof.
  apply (proj2 (proj2 (proj2 reachable_quiz_invariant))).
  apply reachable_run, reachable_run, reachable_initial.
Defined.

(** ** Sequences of submissions *)

(** C3. After exactly three answer submissions from the initial state
    [Asking 0], whatever options are chosen, the quiz is [Finished]:
    [currentIndex = 3]. *)
Theorem three_submissions_finish (a b c : nat) :
  (a ≤ 3)%nat → (b ≤ 3)%nat → (c ≤ 3)%nat →
  Asking 0 initial_session ∧
  Finished (run_all [submitAnswer a; submitAnswer b; submitAnswer c]
              initial_session).
Proof.
  intros Ha Hb Hc. split; [split; [done | by exists 0]|].
  unfold run_all. cbn [foldl].
  destruct (open_question 0 ltac:(done)) as (q0 & Hq0 & _).
  destruct (open_question 1 ltac:(done)) as (q1 & Hq1 & _).
  destruct (open_question 2 ltac:(done)) as (q2 & Hq2 & _).
  destruct (submitAnswer_run initial_session 0 0 q0 a initial_quiz_state
              ltac:(done) Hq0 Ha) as (_ & _ & H1).
  destruct (submitAnswer_run _ _ (0 + 1) q1 b H1 ltac:(done) Hq1 Hb)
    as (_ & _ & H2).
  destruct (submitAnswer_run _ _ (0 + 1 + 1) q2 c H2 ltac:(done) Hq2 Hc)
    as (_ & _ & H3).
  eexists. exact H3.
Qed.

Lemma three_submissions_finish_witness :
  Asking 0 initial_session ∧
  Finished (run_all [submitAnswer 0; submitAnswer 3; submitAnswer 2]
              initial_session).
Proof. apply (three_submissions_finish 0 3 2); lia. Defined.

(** ** Restart *)

(** C4. From every [Finished] state ([currentIndex = 3], any score) the
    restart transition yields [score = 0] and [currentIndex = 0]; the rest of
    the session dictionary is untouched and the script asks for a rerun. *)
Theorem restart_from_finished (σ : gmap string Z) :
  Finished σ →
  quiz_state (next_session restart σ) = Some {| score := 0; currentIndex := 0 |} ∧
  next_session restart σ = <["current_question" := 0]> (<["quiz_score" := 0]> σ) ∧
  outcome restart σ = Raise RerunException.
Proof.
  intros [s Hst].
  destruct (run_quiz_finished restart σ s _ eq_refl Hst ltac:(done))
    as [Hout Hnext].
  change (button_value restart "Restart Quiz") with true in Hout, Hnext.
  split; [|done].
  rewrite Hnext. apply quiz_state_lookups.
  by rewrite lookup_insert_eq, lookup_insert_ne, lookup_insert_eq.
Qed.

Lemma restart_from_finished_witness :
  quiz_state
    (next_session restart
       (run_all [submitAnswer 1; submitAnswer 1; submitAnswer 3] initial_session)) =
    Some {| score := 0; currentIndex := 0 |}.
Proof.
  refine (proj1 (restart_from_finished
                   (run_all [submitAnswer 1; submitAnswer 1; submitAnswer 3]
                      initial_session) _)).
  exists 2. vm_compute. reflexivity.
Defined.

(** C5. Submitting the correct option for question 0, the correct option for
    question 1 and any incorrect option for question 2 (options 1, 1, then
    anything other than 2) from the initial state gives score 2 in state
    [Finished]. *)
Theorem scenario_correct_correct_incorrect (q0 q1 q2 : QuizQuestion) (c : nat) :
  quiz_questions = [q0; q1; q2] →
  (c ≤ 3)%nat →
  Z.of_nat c ≠ answer q2 →
  answer q0 = 1 ∧ answer q1 = 1 ∧ answer q2 = 2 ∧
  quiz_state (run_all [submitAnswer (Z.to_nat (answer q0));
                       submitAnswer (Z.to_nat (answer q1));
                       submitAnswer c] initial_session) =
    Some {| score := 2; currentIndex := 3 |}.
Proof.
  intros [= <- <- <-] Hc Hne. cbn [answer] in *.
  do 3 (split; [reflexivity|]).
  unfold run_all. cbn [foldl].
  destruct (submitAnswer_run initial_session 0 0 _ 1 initial_quiz_state
              ltac:(done) eq_refl ltac:(lia)) as (_ & _ & H1).
  destruct (submitAnswer_run _ _ (0 + 1) _ 1 H1 ltac:(done) eq_refl ltac:(lia))
    as (_ & _ & H2).
  destruct (submitAnswer_run _ _ (0 + 1 + 1) _ c H2 ltac:(done) eq_refl Hc)
    as (_ & _ & H3).
  change (Z.to_nat 1) with 1%nat.
  rewrite H3. cbn [answer].
  rewrite bool_decide_eq_false_2 by exact Hne.
  reflexivity.
Qed.

Lemma scenario_correct_correct_incorrect_witness :
  quiz_state (run_all [submitAnswer 1; submitAnswer 1; submitAnswer 3]
                initial_session) =
    Some {| score := 2; currentIndex := 3 |}.
Proof.
  refine (proj2 (proj2 (proj2
    (scenario_correct_correct_incorrect _ _ _ 3 eq_refl _ _)))).
  - lia.
  - simpl. lia.
Defined.

(** ** The data provider *)

(** C7. [load_data] (the specification's [getCountryStats]) is deterministic
    and pure: whatever the interaction and whatever the session dictionary
    and the page, a call ends normally (no failure), leaves the session
    dictionary and the page exactly as they were (no side effect), and
    returns the same sequence of 8 rows. *)
Theorem getCountryStats_deterministic :
  ∀ (u : unit) (inp : Inputs) (w : World),
    ∃ df,
      load_data u inp w = (Ok df, w) ∧
      getCountryStats u inp w = (Ok (rows df), w) ∧
      length (rows df) = 8%nat ∧
      rows df =
        [ mkCountryStat "Canada" 38 4.2 850;
          mkCountryStat "Russia" 25 3.1 620;
          mkCountryStat "USA" 15 4.0 550;
          mkCountryStat "Netherlands" 10 0.8 180;
          mkCountryStat "South Africa" 8 0.5 120;
          mkCountryStat "China" 5 2.5 420;
          mkCountryStat "Japan" 3 1.8 150;
          mkCountryStat "India" 2 1.2 200 ] ∧
      ∀ (u' : unit) (inp' : Inputs) (w' : World),
        (getCountryStats u' inp' w').1 = Ok (rows df) ∧
        (getCountryStats u' inp' w').2 = w'.
Proof.
  intros u inp w.
  destruct (load_data_ok u inp w) as (df & Hdf & Hlen).
  exists df. split; [exact Hdf|].
  split; [unfold getCountryStats; by rewrite (bind_ok _ _ _ _ _ _ Hdf)|].
  split; [exact Hlen|].
  assert (∀ u' inp' w', load_data u' inp' w' = (Ok df, w')) as Hany.
  { intros u' inp' w'. destruct (load_data_ok u' inp' w') as (df' & Hdf' & _).
    rewrite Hdf'. do 2 f_equal.
    unfold load_data in Hdf, Hdf'. cbv zeta in Hdf, Hdf'.
    destruct (pd_DataFrame _ _ _ _) as [d|]; [|discriminate].
    rewrite mret_run in Hdf, Hdf'. congruence. }
  split.
  - specialize (Hany u inp w). unfold load_data in Hany. cbv zeta in Hany.
    destruct (pd_DataFrame _ _ _ _) as [d|] eqn:Hpd; [|discriminate].
    rewrite mret_run in Hany. injection Hany as ->.
    unfold pd_DataFrame in Hpd. cbn [length Nat.eqb andb] in Hpd.
    injection Hpd as <-. reflexivity.
  - intros u' inp' w'. unfold getCountryStats.
    by rewrite (bind_ok _ _ _ _ _ _ (Hany u' inp' w')).
Qed.

(** C8. Every row of [load_data] has a [productionShare] between 0 and 100
    inclusive. *)
Theorem productionShare_is_percentage :
  ∀ u inp w, ∃ rs, getCountryStats u inp w = (Ok rs, w) ∧
                   Forall (λ r, 0 ≤ productionShare r ≤ 100) rs.
Proof.
  intros u inp w. eexists. split; [reflexivity|].
  repeat (apply Forall_cons; split; [cbn [productionShare]; lia|]).
  apply Forall_nil_2.
Qed.

(** ** The view router *)

Lemma panel_label_inj p p' : panel_label p = panel_label p' → p = p'.
Proof. destruct p, p'; simpl; congruence. Qed.

Lemma navigation_panel app_mode :
  app_mode ∈ navigation → ∃ p, panel_label p = app_mode.
Proof.
  unfold navigation. rewrite !elem_of_cons, elem_of_nil.
  intros [-> | [-> | [-> | [-> | [-> | [-> | []]]]]]].
  - by exists GlobalDashboard.
  - by exists IsotopeProduction.
  - by exists SectorApplications.
  - by exists EconomicAnalysis.
  - by exists InteractiveQuiz.
  - by exists References.
Qed.

(** *** What each branch draws *)

Create HintDb no_title discriminated.

Lemma no_title_mret {A : Type} (a : A) : draws_no_title (mret a).
Proof. by intros inp w. Qed.

Lemma no_title_raise {A : Type} (e : exn) : draws_no_title (@raise A e).
Proof. by intros inp w. Qed.

Lemma no_title_ask : draws_no_title ask.
Proof. by intros inp w. Qed.

Lemma no_title_get_attr k : draws_no_title (get_attr k).
Proof. intros inp w. unfold get_attr. by destruct (session_state w !! k). Qed.

Lemma no_title_set_attr k v : draws_no_title (set_attr k v).
Proof. by intros inp w. Qed.

Lemma no_title_draw (e : Element) : title_of e = None → draws_no_title (draw e).
Proof.
  intros He inp w. rewrite draw_run. cbn [snd page].
  rewrite omap_app. cbn [omap list_omap]. rewrite He. apply app_nil_r.
Qed.

Lemma no_title_bind {A B : Type} (m : Script A) (k : A → Script B) :
  draws_no_title m → (∀ a, draws_no_title (k a)) → draws_no_title (m ≫= k).
Proof.
  intros Hm Hk inp w. rewrite bind_run.
  specialize (Hm inp w). destruct (m inp w) as [[a|e] w']; simpl in *.
  - rewrite Hk. done.
  - done.
Qed.

Lemma no_title_if {A : Type} (b : bool) (m1 m2 : Script A) :
  draws_no_title m1 → draws_no_title m2 → draws_no_title (if b then m1 else m2).
Proof. by destruct b. Qed.

#[local] Hint Resolve no_title_mret no_title_raise no_title_ask no_title_get_attr
  no_title_set_attr no_title_if : no_title.
#[local] Hint Extern 1 (draws_no_title (draw _)) =>
  apply no_title_draw; reflexivity : no_title.
#[local] Hint Extern 2 (draws_no_title (_ ≫= _)) =>
  apply no_title_bind; [| intros ?] : no_title.

Lemma no_title_incr_attr k d : draws_no_title (incr_attr k d).
Proof. unfold incr_attr. auto with no_title. Qed.

Lemma no_title_st_selectbox label opts : draws_no_title (st_selectbox label opts).
Proof. unfold st_selectbox. auto 10 with no_title. Qed.

Lemma no_title_st_button col label key : draws_no_title (st_button col label key).
Proof. unfold st_button. auto 10 with no_title. Qed.

Lemma no_title_st_image path cap : draws_no_title (st_image path cap).
Proof.
  unfold st_image. apply no_title_bind; [apply no_title_ask | intros inp].
  auto with no_title.
Qed.

Lemma no_title_rerun {A : Type} : draws_no_title (@st_experimental_rerun A).
Proof. apply no_title_raise. Qed.

#[local] Hint Resolve no_title_incr_attr no_title_st_selectbox no_title_st_button
  no_title_st_image no_title_rerun : no_title.

Lemma no_title_option_buttons q opts : ∀ i, draws_no_title (option_buttons q i opts).
Proof.
  induction opts as [|option rest IH]; intros i; cbn [option_buttons].
  - apply no_title_mret.
  - auto 20 with no_title.
Qed.

Lemma no_title_sidebar : draws_no_title sidebar.
Proof.
  unfold sidebar, st_sidebar_radio. auto 30 with no_title.
Qed.

(** A computation that draws a title and then no other one. *)
Lemma title_then {A : Type} (t : string) (m : Script A) inp w :
  draws_no_title m →
  omap title_of (page ((draw (title t) ≫= λ _, m) inp w).2) =
    (omap title_of (page w) ++ [t])%list.
Proof.
  intros Hm. rewrite bind_run, draw_run. cbv beta iota.
  rewrite Hm. cbn [page]. by rewrite omap_app.
Qed.

(** Every branch of [main] draws its title and no other title, however the
    branch ends. *)
Lemma render_title p df inp w :
  omap title_of (page (render p df inp w).2) =
    (omap title_of (page w) ++ [panel_title p])%list.
Proof.
  destruct p; cbn [render panel_title].
  - unfold global_dashboard. apply title_then. auto 30 with no_title.
  - unfold isotope_production. cbv zeta. apply title_then. auto 30 with no_title.
  - unfold sector_applications, medical_applications, industrial_applications.
    cbv zeta. apply title_then. auto 30 with no_title.
  - unfold economic_analysis. cbv zeta. apply title_then. auto 30 with no_title.
  - unfold interactive_quiz. apply title_then.
    apply no_title_bind; [auto with no_title | intros _].
    apply no_title_bind; [auto with no_title | intros cq].
    apply no_title_if.
    + apply no_title_bind; [auto with no_title | intros cq'].
      apply no_title_bind.
      { destruct (py_getitem quiz_questions cq'); auto with no_title. }
      intros q. pose proof (no_title_option_buttons q (options q) 0).
      auto 20 with no_title.
    + auto 30 with no_title.
  - unfold references. apply title_then. auto 30 with no_title.
Qed.

Lemma panel_title_inj p p' : panel_title p = panel_title p' → p = p'.
Proof. destruct p, p'; simpl; congruence. Qed.

(** C9. For every choice of the six-entry navigation menu the router takes
    the branch of exactly the panel with that label, and [main] runs the body
    of that branch after the sidebar: the one title the run draws is the
    title of that panel, which no other panel has. The final [else] is taken
    by the label References only, and choosing never fails. *)
Theorem view_router_selects_panel (app_mode : string) (inp : Inputs) (w : World) :
  app_mode ∈ navigation →
  radio_value inp = app_mode →
  ∃ p df,
    panel_label p = app_mode ∧
    (∀ p', panel_label p' = app_mode → p' = p) ∧
    selectPanel app_mode = p ∧
    (sidebar inp w).1 = Ok app_mode ∧
    load_data tt inp w = (Ok df, w) ∧
    main inp w = render p df inp (sidebar inp w).2 ∧
    omap title_of (page (main inp w).2) =
      (omap title_of (page w) ++ [panel_title p])%list ∧
    (∀ p', panel_title p' = panel_title p → p' = p).
Proof.
  intros [p <-]%navigation_panel Hr.
  destruct (main_run inp w) as (df & Hdf & Hmain).
  exists p, df. split; [done|].
  split; [by intros p' ?%panel_label_inj|].
  split; [apply selectPanel_label|].
  split; [by rewrite sidebar_result, Hr|].
  split; [done|].
  rewrite Hr, selectPanel_label in Hmain.
  split; [done|].
  split; [|by intros p' ?%panel_title_inj].
  rewrite Hmain, render_title. f_equal. apply no_title_sidebar.
Qed.

Lemma view_router_selects_panel_witness :
  ∃ p df,
    panel_label p = "References" ∧
    (∀ p', panel_label p' = "References" → p' = p) ∧
    selectPanel "References" = p ∧
    (sidebar (mkInputs "References" "Medical" (λ _, false) (λ _, true))
       {| session_state := ∅; page := [] |}).1 = Ok "References" ∧
    load_data tt (mkInputs "References" "Medical" (λ _, false) (λ _, true))
      {| session_state := ∅; page := [] |} =
      (Ok df, {| session_state := ∅; page := [] |}) ∧
    main (mkInputs "References" "Medical" (λ _, false) (λ _, true))
         {| session_state := ∅; page := [] |} =
      render p df (mkInputs "References" "Medical" (λ _, false) (λ _, true))
        (sidebar (mkInputs "References" "Medical" (λ _, false) (λ _, true))
           {| session_state := ∅; page := [] |}).2 ∧
    omap title_of
      (page (main (mkInputs "References" "Medical" (λ _, false) (λ _, true))
               {| session_state := ∅; page := [] |}).2) =
      (omap title_of (page {| session_state := ∅; page := [] |}) ++
       [panel_title p])%list ∧
    (∀ p', panel_title p' = panel_title p → p' = p).
Proof.
  apply (view_router_selects_panel "References").
  - unfold navigation. do 5 right. left.
  - reflexivity.
Defined.

(** ** Panels other than the quiz *)

Lemma keeps_main_other_panel inp w :
  radio_value inp ≠ "Interactive Quiz" →
  session_state (main inp w).2 = session_state w.
Proof.
  intros Hr. destruct (main_run inp w) as (df & _ & ->).
  rewrite keeps_render by (by rewrite selectPanel_quiz).
  apply keeps_sidebar.
Qed.

(** C10. Rendering any panel other than Interactive Quiz leaves
    [st.session_state] as it was, however the rendering ends; on an
    initialised session, [quiz_score] and [current_question] have the same
    values after the run as before. *)
Theorem other_panels_keep_quiz_state (inp : Inputs) (w : World) :
  radio_value inp ≠ "Interactive Quiz" →
  session_state (main inp w).2 = session_state w ∧
  ∀ st, quiz_state (session_state w) = Some st →
        next_session inp (session_state w) = session_state w ∧
        quiz_state (next_session inp (session_state w)) = Some st.
Proof.
  intros Hr. split; [by apply keeps_main_other_panel|].
  intros st Hst. rewrite (run_other_panel inp _ st Hr Hst). done.
Qed.

Lemma other_panels_keep_quiz_state_witness :
  session_state
    (main (industrial_inputs false)
       {| session_state := next_session (submitAnswer 1) initial_session;
          page := [] |}).2 =
  next_session (submitAnswer 1) initial_session.
Proof.
  refine (proj1 (other_panels_keep_quiz_state (industrial_inputs false)
                   {| session_state := next_session (submitAnswer 1) initial_session;
                      page := [] |} _)).
  simpl. discriminate.
Defined.

(** ** The Industrial panel and its image *)

(** The panel calls [st.image] without a guard of its own: when the call
    succeeds the image is the last element drawn, and when it raises, the
    exception ends the run right after the markdown text. Either way the
    session dictionary is kept. *)
Lemma industrial_panel_image (loads : bool) (σ : gmap string Z) (st : QuizState) :
  quiz_state σ = Some st →
  outcome (industrial_inputs loads) σ =
    (if loads then Ok tt else Raise (ImageError "industrial_apps.jpg")) ∧
  last (page (run (industrial_inputs loads) σ).2) =
    Some (if loads
          then image "industrial_apps.jpg" "Industrial radiography using isotopes"
          else markdown "**Key Uses:**") ∧
  next_session (industrial_inputs loads) σ = σ.
Proof.
  intros Hst. unfold outcome, next_session.
  rewrite (run_initialised _ _ _ Hst).
  destruct loads; repeat split.
Qed.

(** * Further properties of the script *)

(** ** Session initialisation *)

Lemma has_key_run_none k inp w :
  session_state w !! k = None → has_key k inp w = (Ok false, w).
Proof.
  intros H. unfold has_key. rewrite H.
  rewrite bool_decide_eq_false_2 by (by intros [? ?]). reflexivity.
Qed.

Lemma init_session_state_run inp w :
  init_session_state inp w =
    (Ok tt,
     {| session_state :=
          let σ1 := match session_state w !! "quiz_score" with
                    | Some _ => session_state w
                    | None => <["quiz_score" := 0]> (session_state w)
                    end in
          match σ1 !! "current_question" with
          | Some _ => σ1
          | None => <["current_question" := 0]> σ1
          end;
        page := page w |}).
Proof.
  destruct w as [σ pg]. unfold init_session_state. cbn [session_state page].
  destruct (σ !! "quiz_score") as [s|] eqn:Hs.
  - rewrite (bind_ok _ _ _ _ true {| session_state := σ; page := pg |})
      by (by eapply has_key_run).
    cbn [negb]. rewrite (bind_ok _ _ _ _ tt {| session_state := σ; page := pg |})
      by reflexivity.
    destruct (σ !! "current_question") as [i|] eqn:Hi.
    + by rewrite (bind_ok _ _ _ _ true {| session_state := σ; page := pg |})
        by (by eapply has_key_run).
    + by rewrite (bind_ok _ _ _ _ false {| session_state := σ; page := pg |})
        by (by eapply has_key_run_none).
  - rewrite (bind_ok _ _ _ _ false {| session_state := σ; page := pg |})
      by (by eapply has_key_run_none).
    cbn [negb].
    rewrite (bind_ok _ _ _ _ tt
               {| session_state := <["quiz_score" := 0]> σ; page := pg |})
      by reflexivity.
    rewrite lookup_insert_ne by done.
    destruct (σ !! "current_question") as [i|] eqn:Hi.
    + rewrite (bind_ok _ _ _ _ true
                 {| session_state := <["quiz_score" := 0]> σ; page := pg |});
        [done|].
      eapply has_key_run. cbn [session_state].
      rewrite lookup_insert_ne by done. exact Hi.
    + rewrite (bind_ok _ _ _ _ false
                 {| session_state := <["quiz_score" := 0]> σ; page := pg |});
        [done|].
      eapply has_key_run_none. cbn [session_state].
      rewrite lookup_insert_ne by done. exact Hi.
Qed.

Lemma init_session_state_lookup (inp : Inputs) (w : World) :
  (init_session_state inp w).1 = Ok tt ∧
  page (init_session_state inp w).2 = page w ∧
  ∀ k, session_state (init_session_state inp w).2 !! k =
         if bool_decide (k = "quiz_score" ∨ k = "current_question")
         then Some (default 0 (session_state w !! k))
         else session_state w !! k.
Proof.
  rewrite init_session_state_run. cbn [fst snd session_state page].
  split; [done|]. split; [done|]. intros k.
  destruct (decide (k = "quiz_score")) as [-> | Hk1];
    [rewrite bool_decide_eq_true_2 by (by left)
    |destruct (decide (k = "current_question")) as [-> | Hk2];
       [rewrite bool_decide_eq_true_2 by (by right)
       |rewrite bool_decide_eq_false_2 by (by intros [? | ?])]];
    destruct (session_state w !! "quiz_score") as [s|] eqn:Hs; cbv zeta;
    rewrite ?(lookup_insert_ne (session_state w) "quiz_score" "current_question")
      by done;
    destruct (session_state w !! "current_question") as [i|] eqn:Hi;
    repeat first [ rewrite lookup_insert_eq
                 | rewrite lookup_insert_ne by done ];
    rewrite ?Hs, ?Hi; done.
Qed.

(** X1. The initialisation at the top of the script never fails and draws
    nothing; a counter that is already in the session dictionary keeps its
    value, a missing one is set to 0, and no other key is touched. *)
Theorem init_session_state_keeps_counters (inp : Inputs) (w : World) :
  (init_session_state inp w).1 = Ok tt ∧
  page (init_session_state inp w).2 = page w ∧
  ∀ k, session_state (init_session_state inp w).2 !! k =
         if bool_decide (k = "quiz_score" ∨ k = "current_question")
         then Some (default 0 (session_state w !! k))
         else session_state w !! k.
Proof. apply init_session_state_lookup. Qed.

Lemma quiz_state_initialised σ :
  quiz_state (initialised σ) =
    Some {| score := default 0 (σ !! "quiz_score");
            currentIndex := default 0 (σ !! "current_question") |}.
Proof.
  apply quiz_state_lookups. unfold initialised.
  destruct (init_session_state_lookup (quiz_inputs (λ _, false))
              {| session_state := σ; page := [] |}) as (_ & _ & Hk).
  rewrite !Hk. cbn [session_state].
  rewrite !bool_decide_eq_true_2 by auto. done.
Qed.

Lemma run_initialises inp σ :
  run inp σ = main inp {| session_state := initialised σ; page := [] |}.
Proof.
  unfold run, script, initialised.
  rewrite bind_run, !init_session_state_run. reflexivity.
Qed.

Lemma run_initialised_session inp σ : run inp σ = run inp (initialised σ).
Proof.
  rewrite (run_initialised inp (initialised σ) _ (quiz_state_initialised σ)).
  apply run_initialises.
Qed.

(** X2. A run on any session dictionary is a run on the initialised
    dictionary, in which both counters are present (a missing one reads 0);
    in particular the first run of a new session, whose dictionary is empty,
    is a run from score 0 and question index 0. *)
Theorem run_from_any_session (inp : Inputs) (σ : gmap string Z) :
  run inp σ = run inp (initialised σ) ∧
  quiz_state (initialised σ) =
    Some {| score := default 0 (σ !! "quiz_score");
            currentIndex := default 0 (σ !! "current_question") |} ∧
  initialised ∅ = initial_session ∧
  run inp ∅ = run inp initial_session.
Proof.
  split; [apply run_initialised_session|].
  split; [apply quiz_state_initialised|].
  split; [reflexivity|]. apply (run_initialised_session inp ∅).
Qed.

(** ** How a run can end *)

Lemma selectPanel_cases app_mode :
  selectPanel app_mode ≠ References →
  app_mode = panel_label (selectPanel app_mode).
Proof. unfold selectPanel. repeat case_bool_decide; done. Qed.

Lemma st_image_run path cap inp w :
  st_image path cap inp w =
    if image_loads inp path
    then (Ok tt, {| session_state := session_state w;
                    page := page w ++ [image path cap] |})
    else (Raise (ImageError path), w).
Proof. unfold st_image. rewrite bind_run. cbn. by destruct (image_loads inp path). Qed.

Lemma sector_applications_run inp w :
  sector_applications inp w =
    (if bool_decide (selectbox_value inp = "Medical") then medical_applications
     else if bool_decide (selectbox_value inp = "Industrial")
          then industrial_applications
          else mret tt)
      inp
      {| session_state := session_state w;
         page := page w ++
                 [title "📊 Sector Applications Analysis";
                  selectbox "Select Sector"
                    ["Medical"; "Industrial"; "Agricultural"; "Space Technology"]] |}.
Proof.
  unfold sector_applications, st_selectbox.
  rewrite !bind_run, !draw_run. cbv beta iota.
  rewrite !bind_run, !draw_run. cbv beta iota.
  cbn [session_state page]. rewrite <- app_assoc. reflexivity.
Qed.

Lemma industrial_applications_run inp w :
  industrial_applications inp w =
    st_image "industrial_apps.jpg" "Industrial radiography using isotopes" inp
      {| session_state := session_state w;
         page := page w ++ [subheader "Industrial Applications";
                            markdown "**Key Uses:**"] |}.
Proof.
  unfold industrial_applications.
  rewrite !bind_run, !draw_run. cbv beta iota.
  rewrite !bind_run, !draw_run. cbv beta iota.
  cbn [session_state page]. rewrite <- app_assoc. reflexivity.
Qed.

(** A run on a panel other than the quiz ends normally, unless it is the
    Industrial sector and [st.image] raises. *)
Lemma run_other_panel_outcome inp σ st :
  radio_value inp ≠ "Interactive Quiz" →
  quiz_state σ = Some st →
  outcome inp σ = Ok tt ∨
  (outcome inp σ = Raise (ImageError "industrial_apps.jpg") ∧
   radio_value inp = "Sector Applications" ∧
   selectbox_value inp = "Industrial" ∧
   image_loads inp "industrial_apps.jpg" = false).
Proof.
  intros Hr Hst. unfold outcome.
  rewrite (run_initialised _ _ _ Hst).
  destruct (main_run inp {| session_state := σ; page := [] |}) as (df & _ & ->).
  destruct (selectPanel (radio_value inp)) eqn:Hp; cbn [render].
  - by left.
  - by left.
  - rewrite sector_applications_run.
    case_bool_decide as Hmed; [by left|].
    case_bool_decide as Hind; [|by left].
    rewrite industrial_applications_run, st_image_run.
    destruct (image_loads inp "industrial_apps.jpg") eqn:Himg; [by left|].
    right. split; [done|]. split; [|done].
    rewrite (selectPanel_cases (radio_value inp)) by (by rewrite Hp).
    by rewrite Hp.
  - by left.
  - by apply selectPanel_quiz in Hp.
  - by left.
Qed.

(** With a question index below the number of questions that is no index of
    the list, indexing raises and the session dictionary is kept. *)
Lemma run_quiz_index_error inp σ s i :
  radio_value inp = "Interactive Quiz" →
  quiz_state σ = Some {| score := s; currentIndex := i |} →
  i < len_quiz_questions →
  py_getitem quiz_questions i = None →
  outcome inp σ = Raise IndexError ∧ next_session inp σ = σ.
Proof.
  intros Hr Hst Hlt Hq. unfold outcome, next_session.
  rewrite (run_initialised _ _ _ Hst).
  destruct (main_run inp {| session_state := σ; page := [] |}) as (df & _ & ->).
  rewrite Hr, (proj2 (selectPanel_quiz _) eq_refl). cbn [render].
  apply quiz_state_lookups in Hst as [Hs Hi].
  unfold interactive_quiz.
  run_draws. run_get Hi.
  apply Z.ltb_lt in Hlt. rewrite Hlt.
  run_draws. run_get Hi.
  run_draws. rewrite Hq. done.
Qed.

(** The three ways a run on an initialised session can go: it leaves the
    session dictionary alone, it records the answer of the first clicked
    option button, or it restarts the quiz. *)
Lemma run_cases inp σ s i :
  quiz_state σ = Some {| score := s; currentIndex := i |} →
  (next_session inp σ = σ ∧
   (outcome inp σ = Ok tt ∨
    (outcome inp σ = Raise (ImageError "industrial_apps.jpg") ∧
     radio_value inp = "Sector Applications" ∧
     selectbox_value inp = "Industrial" ∧
     image_loads inp "industrial_apps.jpg" = false) ∨
    (outcome inp σ = Raise IndexError ∧ i < 0))) ∨
  (∃ q j, radio_value inp = "Interactive Quiz" ∧
          i < len_quiz_questions ∧
          py_getitem quiz_questions i = Some q ∧
          first_clicked inp 0 (length (options q)) = Some j ∧
          outcome inp σ = Raise RerunException ∧
          next_session inp σ = answered q j s i σ) ∨
  (radio_value inp = "Interactive Quiz" ∧
   len_quiz_questions ≤ i ∧
   button_value inp "Restart Quiz" = true ∧
   outcome inp σ = Raise RerunException ∧
   next_session inp σ = <["current_question" := 0]> (<["quiz_score" := 0]> σ)).
Proof.
  intros Hst.
  destruct (decide (radio_value inp = "Interactive Quiz")) as [Hr|Hr].
  - destruct (decide (i < len_quiz_questions)) as [Hlt|Hge].
    + destruct (py_getitem quiz_questions i) as [q|] eqn:Hq.
      * pose proof (run_quiz_asking inp σ s i q Hr Hst Hlt Hq) as Hrun.
        destruct (first_clicked inp 0 (length (options q))) as [j|] eqn:Hj.
        -- right. left. exists q, j. by destruct Hrun.
        -- left. destruct Hrun as [-> ->]. auto.
      * destruct (run_quiz_index_error inp σ s i Hr Hst Hlt Hq) as [-> ->].
        left. split; [done|]. right. right. split; [done|].
        destruct (decide (i < 0)) as [|Hi0]; [done|].
        rewrite py_getitem_lookup in Hq by (unfold len_quiz_questions in Hlt; lia).
        apply lookup_ge_None in Hq. unfold len_quiz_questions in Hlt. lia.
    + destruct (run_quiz_finished inp σ s i Hr Hst ltac:(lia)) as [Hout Hnext].
      destruct (button_value inp "Restart Quiz") eqn:Hb.
      * right. right. repeat split; [done | lia | done | done].
      * left. auto.
  - left. split; [by eapply run_other_panel|].
    destruct (run_other_panel_outcome inp σ _ Hr Hst) as [?|?]; auto.
Qed.

(** ** The score never exceeds the question index *)

Lemma score_within_index_initial : score_within_index initial_session.
Proof. exists 0, 0. split; [reflexivity|]. unfold len_quiz_questions. simpl. lia. Qed.

Lemma run_preserves_score_within_index inp σ :
  score_within_index σ → score_within_index (next_session inp σ).
Proof.
  intros (s & i & Hst & Hs & Hi).
  destruct (run_cases inp σ s i Hst)
    as [[-> _] | [(q & j & _ & Hlt & _ & _ & _ & ->) | (_ & _ & _ & _ & ->)]].
  - by exists s, i.
  - apply quiz_state_lookups in Hst as [Hqs _].
    eexists _, _. split; [by apply quiz_state_answered|].
    case_bool_decide; lia.
  - exists 0, 0. split; [|unfold len_quiz_questions; simpl; lia].
    apply quiz_state_lookups.
    by rewrite lookup_insert_eq, lookup_insert_ne, lookup_insert_eq.
Qed.

(** X3. In every reachable session the score is at most the question index,
    which is at most 3: the score shown as [score/3] when the quiz is
    completed is never above 3, and never counts more answers than were
    given. *)
Theorem reachable_score_within_index (σ : gmap string Z) :
  reachable σ →
  ∃ s i, quiz_state σ = Some {| score := s; currentIndex := i |} ∧
         0 ≤ s ≤ i ∧ i ≤ 3.
Proof.
  induction 1 as [|inp σ _ IH].
  - exact score_within_index_initial.
  - by apply run_preserves_score_within_index.
Qed.

Lemma reachable_score_within_index_witness :
  ∃ s i, quiz_state (run_all [submitAnswer 1; submitAnswer 0] initial_session) =
           Some {| score := s; currentIndex := i |} ∧
         0 ≤ s ≤ i ∧ i ≤ 3.
Proof.
  apply (reachable_score_within_index
           (run_all [submitAnswer 1; submitAnswer 0] initial_session)).
  apply reachable_run, reachable_run, reachable_initial.
Defined.

(** ** What one run can change *)

Lemma quiz_state_restarted σ :
  quiz_state (<["current_question" := 0]> (<["quiz_score" := 0]> σ)) =
    Some {| score := 0; currentIndex := 0 |}.
Proof.
  apply quiz_state_lookups.
  by rewrite lookup_insert_eq, lookup_insert_ne, lookup_insert_eq.
Qed.

(** X4. Whatever the interaction (any panel, any set of buttons reporting a
    click), one run either restarts the quiz (both counters to 0, only with
    the quiz completed and the restart button clicked) or records at most one
    answer: the index goes up by at most 1 and the score by at most as much
    as the index. *)
Theorem run_records_at_most_one_answer
    (inp : Inputs) (σ : gmap string Z) (s i : Z) :
  quiz_state σ = Some {| score := s; currentIndex := i |} →
  ∃ s' i',
    quiz_state (next_session inp σ) = Some {| score := s'; currentIndex := i' |} ∧
    ((s' = 0 ∧ i' = 0 ∧ len_quiz_questions ≤ i ∧
      button_value inp "Restart Quiz" = true) ∨
     (s ≤ s' ≤ s + 1 ∧ i ≤ i' ≤ i + 1 ∧ s' - s ≤ i' - i)).
Proof.
  intros Hst.
  destruct (run_cases inp σ s i Hst)
    as [[-> _] | [(q & j & _ & _ & _ & _ & _ & ->) | (_ & Hi & Hb & _ & ->)]].
  - exists s, i. split; [done|]. right. lia.
  - apply quiz_state_lookups in Hst as [Hqs _].
    eexists _, _. split; [by apply quiz_state_answered|].
    right. case_bool_decide; lia.
  - exists 0, 0. split; [apply quiz_state_restarted|]. by left.
Qed.

Lemma run_records_at_most_one_answer_witness :
  ∃ s' i',
    quiz_state (next_session (quiz_inputs (λ _, true)) initial_session) =
      Some {| score := s'; currentIndex := i' |} ∧
    ((s' = 0 ∧ i' = 0 ∧ len_quiz_questions ≤ 0 ∧
      button_value (quiz_inputs (λ _, true)) "Restart Quiz" = true) ∨
     (0 ≤ s' ≤ 0 + 1 ∧ 0 ≤ i' ≤ 0 + 1 ∧ s' - 0 ≤ i' - 0)).
Proof.
  apply (run_records_at_most_one_answer (quiz_inputs (λ _, true))
           initial_session 0 0).
  reflexivity.
Defined.

(** X5. A run asks for a rerun exactly when it has changed one of the
    two quiz counters: after a run that ends otherwise, the counters are as
    they were when the page was drawn. *)
Theorem rerun_iff_session_changed (inp : Inputs) (σ : gmap string Z) (st : QuizState) :
  quiz_state σ = Some st →
  outcome inp σ = Raise RerunException ↔
  quiz_state (next_session inp σ) ≠ quiz_state σ.
Proof.
  destruct st as [s i]. intros Hst.
  pose proof Hst as [Hqs Hcq]%quiz_state_lookups.
  destruct (run_cases inp σ s i Hst)
    as [[-> Hout] | [(q & j & _ & _ & _ & _ & -> & ->) | (_ & Hi & _ & -> & ->)]].
  - split; [|done]. intros Hre.
    destruct Hout as [Hout | [[Hout _] | [Hout _]]]; congruence.
  - split; [|done]. intros _.
    rewrite (quiz_state_answered q j s i σ Hqs), Hst.
    intros [= _ Heq]. lia.
  - split; [|done]. intros _.
    rewrite quiz_state_restarted, Hst. intros [= _ Heq].
    unfold len_quiz_questions in Hi. simpl in Hi. lia.
Qed.

Lemma rerun_iff_session_changed_witness :
  outcome (submitAnswer 0) initial_session = Raise RerunException ↔
  quiz_state (next_session (submitAnswer 0) initial_session) ≠
    quiz_state initial_session.
Proof.
  apply (rerun_iff_session_changed (submitAnswer 0) initial_session
           {| score := 0; currentIndex := 0 |}).
  reflexivity.
Defined.

(** X6. A run from a reachable session ends normally, with the rerun
    request, or with the exception of [st.image] on the Industrial sector;
    it never ends with [AttributeError], [IndexError] or [ValueError]. *)
Theorem reachable_run_outcome (inp : Inputs) (σ : gmap string Z) :
  reachable σ →
  outcome inp σ = Ok tt ∨
  outcome inp σ = Raise RerunException ∨
  (outcome inp σ = Raise (ImageError "industrial_apps.jpg") ∧
   radio_value inp = "Sector Applications" ∧
   selectbox_value inp = "Industrial" ∧
   image_loads inp "industrial_apps.jpg" = false).
Proof.
  intros Hreach.
  assert (score_within_index σ) as (s & i & Hst & Hs & Hi).
  { induction Hreach as [|inp' σ' _ IH].
    - exact score_within_index_initial.
    - by apply run_preserves_score_within_index. }
  destruct (run_cases inp σ s i Hst)
    as [[_ Hout] | [(q & j & _ & _ & _ & _ & Hout & _) | (_ & _ & _ & Hout & _)]].
  - destruct Hout as [Hout | [Hout | [_ Hneg]]]; [auto | auto | lia].
  - auto.
  - auto.
Qed.

Lemma reachable_run_outcome_witness :
  outcome (industrial_inputs false) initial_session = Ok tt ∨
  outcome (industrial_inputs false) initial_session = Raise RerunException ∨
  (outcome (industrial_inputs false) initial_session =
     Raise (ImageError "industrial_apps.jpg") ∧
   radio_value (industrial_inputs false) = "Sector Applications" ∧
   selectbox_value (industrial_inputs false) = "Industrial" ∧
   image_loads (industrial_inputs false) "industrial_apps.jpg" = false).
Proof.
  apply (reachable_run_outcome (industrial_inputs false) initial_session).
  apply reachable_initial.
Defined.

(** ** The buttons of the quiz panel *)

Lemma str_of_nat_inj n m : str_of_nat n = str_of_nat m → n = m.
Proof.
  unfold str_of_nat. intros H.
  apply DecimalNat.Unsigned.to_uint_inj.
  apply (f_equal NilEmpty.uint_of_string) in H.
  rewrite !NilEmpty.usu in H. congruence.
Qed.

Lemma option_key_inj n m :
  "option_" +:+ str_of_nat n = "option_" +:+ str_of_nat m → n = m.
Proof. simpl. intros [= H]. by apply str_of_nat_inj. Qed.

Lemma first_clicked_none_cons inp i n :
  first_clicked inp i (S n) = None →
  button_value inp ("option_" +:+ str_of_nat i) = false ∧
  first_clicked inp (S i) n = None.
Proof.
  cbn [first_clicked].
  by destruct (button_value inp ("option_" +:+ str_of_nat i)).
Qed.

(** Without a click the loop draws one button per option and ends normally. *)
Lemma option_buttons_no_click q opts : ∀ i inp w,
  first_clicked inp i (length opts) = None →
  option_buttons q i opts inp w =
    (Ok tt, {| session_state := session_state w;
               page := page w ++ option_button_elements i opts |}).
Proof.
  induction opts as [|option rest IH]; intros i inp w Hnone.
  - cbn [option_buttons option_button_elements]. rewrite app_nil_r.
    by destruct w.
  - cbn [length] in Hnone. apply first_clicked_none_cons in Hnone as [Hb Hrest].
    cbn [option_buttons option_button_elements].
    rewrite bind_run, st_button_run, Hb. cbv beta iota.
    rewrite bind_run, mret_run. cbv beta iota.
    rewrite (IH (S i) inp _ Hrest). cbn [session_state page].
    by rewrite <- app_assoc.
Qed.

Lemma option_button_keys i opts :
  omap button_key (option_button_elements i opts) =
    (λ k, "option_" +:+ str_of_nat k) <$> seq i (length opts).
Proof.
  revert i. induction opts as [|option rest IH]; intros i; [done|].
  cbn [option_button_elements length seq fmap list_fmap omap list_omap button_key].
  f_equal. apply IH.
Qed.

(** X8. When no option button reports a click, the loop of the quiz panel
    ends normally after drawing exactly one button per option, in order, the
    button of option [k] in column [k mod 2] with key [option_k]; the keys of
    these buttons are pairwise distinct, for any number of options. *)
Theorem option_buttons_drawn
    (q : QuizQuestion) (opts : list string) (i : nat) (inp : Inputs) (w : World) :
  first_clicked inp i (length opts) = None →
  option_buttons q i opts inp w =
    (Ok tt, {| session_state := session_state w;
               page := page w ++ option_button_elements i opts |}) ∧
  length (option_button_elements i opts) = length opts ∧
  omap button_key (option_button_elements i opts) =
    (λ k, "option_" +:+ str_of_nat k) <$> seq i (length opts) ∧
  NoDup (omap button_key (option_button_elements i opts)).
Proof.
  intros Hnone. split; [by apply option_buttons_no_click|].
  split.
  { clear Hnone. revert i. induction opts as [|o rest IH]; intros i; [done|].
    cbn [option_button_elements length]. by rewrite IH. }
  split; [apply option_button_keys|].
  rewrite option_button_keys.
  apply NoDup_fmap_2; [|apply NoDup_seq].
  intros n m. apply option_key_inj.
Qed.

Lemma option_buttons_drawn_witness :
  option_buttons (mkQuizQuestion "Q" ["a"; "b"; "c"] 0) 0 ["a"; "b"; "c"]
      (quiz_inputs (λ _, false)) {| session_state := ∅; page := [] |} =
    (Ok tt, {| session_state := ∅;
               page := [] ++ option_button_elements 0 ["a"; "b"; "c"] |}).
Proof.
  refine (proj1 (option_buttons_drawn (mkQuizQuestion "Q" ["a"; "b"; "c"] 0)
                   ["a"; "b"; "c"] 0 (quiz_inputs (λ _, false))
                   {| session_state := ∅; page := [] |} _)).
  reflexivity.
Defined.

(** The message drawn for the first clicked option is the last element of the
    page. *)
Lemma option_buttons_feedback q opts : ∀ i inp w s c j,
  session_state w !! "quiz_score" = Some s →
  session_state w !! "current_question" = Some c →
  first_clicked inp i (length opts) = Some j →
  last (page (option_buttons q i opts inp w).2) =
    Some (if bool_decide (Z.of_nat j = answer q)
          then success "Correct!" else error "Incorrect!").
Proof.
  induction opts as [|option rest IH]; intros i inp w s c j Hs Hc Hj.
  - done.
  - cbn [length first_clicked] in Hj. cbn [option_buttons].
    rewrite bind_run, st_button_run.
    destruct (button_value inp ("option_" +:+ str_of_nat i)) eqn:Hb.
    + injection Hj as <-. cbv beta iota. case_bool_decide as Hans.
      * rewrite !bind_run, draw_run. cbv beta iota.
        erewrite incr_attr_run by (simpl; exact Hs). cbv beta iota.
        rewrite bind_run.
        erewrite incr_attr_run
          by (simpl; rewrite lookup_insert_ne by done; exact Hc).
        cbn. apply last_snoc.
      * rewrite !bind_run, draw_run. cbv beta iota.
        rewrite bind_run.
        erewrite incr_attr_run by (simpl; exact Hc).
        cbn. apply last_snoc.
    + rewrite bind_run, mret_run. cbv beta iota.
      by apply (IH (S i) inp _ s c j).
Qed.

Lemma set_attr_run k v inp w :
  set_attr k v inp w =
    (Ok tt, {| session_state := <[k := v]> (session_state w); page := page w |}).
Proof. reflexivity. Qed.

Lemma rerun_run {A : Type} inp w :
  (st_experimental_rerun : Script A) inp w = (Raise RerunException, w).
Proof. reflexivity. Qed.

(** The quiz panel draws no button before the loop over the options. *)
Lemma interactive_quiz_asking_buttons inp w s i q :
  session_state w !! "quiz_score" = Some s →
  session_state w !! "current_question" = Some i →
  i < len_quiz_questions →
  py_getitem quiz_questions i = Some q →
  ∃ pg, interactive_quiz inp w =
          option_buttons q 0 (options q) inp
            {| session_state := session_state w; page := pg |} ∧
        omap button_key pg = omap button_key (page w).
Proof.
  intros Hs Hi Hlt Hq. unfold interactive_quiz.
  run_draws. run_get Hi.
  apply Z.ltb_lt in Hlt. rewrite Hlt.
  run_draws. run_get Hi.
  run_draws. rewrite Hq, mret_run. cbv beta iota.
  run_draws. run_get Hi.
  run_draws.
  eexists. split; [reflexivity|].
  cbn [page session_state]. rewrite !omap_app. cbn. by rewrite !app_nil_r.
Qed.

Lemma interactive_quiz_finished_buttons inp w s i :
  session_state w !! "quiz_score" = Some s →
  session_state w !! "current_question" = Some i →
  len_quiz_questions ≤ i →
  omap button_key (page (interactive_quiz inp w).2) =
    (omap button_key (page w) ++ ["Restart Quiz"])%list.
Proof.
  intros Hs Hi Hge. unfold interactive_quiz.
  run_draws. run_get Hi.
  apply Z.ltb_ge in Hge. rewrite Hge.
  run_draws. run_get Hs.
  run_draws.
  destruct (button_value inp "Restart Quiz");
    repeat (progress (rewrite ?bind_run, ?set_attr_run, ?mret_run, ?rerun_run;
                      cbv beta iota));
    cbn [page snd session_state];
    rewrite !omap_app; cbn; by rewrite !app_nil_r.
Qed.

Lemma run_quiz_panel inp σ st :
  radio_value inp = "Interactive Quiz" →
  quiz_state σ = Some st →
  ∃ w, run inp σ = interactive_quiz inp w ∧
       session_state w = σ ∧ omap button_key (page w) = [].
Proof.
  intros Hr Hst. rewrite (run_initialised _ _ _ Hst).
  destruct (main_run inp {| session_state := σ; page := [] |}) as (df & _ & ->).
  rewrite Hr, (proj2 (selectPanel_quiz _) eq_refl). cbn [render].
  eexists. split; [reflexivity|]. split; reflexivity.
Qed.

(** X9. With the quiz completed the panel offers the restart button only:
    clicks reported for option buttons are not looked at, so a further answer
    submission ends the run normally and leaves both quiz counters as they
    were. *)
Theorem completed_quiz_ignores_answers
    (inp : Inputs) (σ : gmap string Z) (s i : Z) :
  radio_value inp = "Interactive Quiz" →
  quiz_state σ = Some {| score := s; currentIndex := i |} →
  len_quiz_questions ≤ i →
  button_value inp "Restart Quiz" = false →
  outcome inp σ = Ok tt ∧
  quiz_state (next_session inp σ) = Some {| score := s; currentIndex := i |} ∧
  omap button_key (page (run inp σ).2) = ["Restart Quiz"].
Proof.
  intros Hr Hst Hge Hb.
  destruct (run_quiz_finished inp σ s i Hr Hst Hge) as [Hout Hnext].
  rewrite Hb in Hout, Hnext. split; [done|]. split; [by rewrite Hnext|].
  destruct (run_quiz_panel inp σ _ Hr Hst) as (w & -> & Hw & Hpg).
  apply quiz_state_lookups in Hst as [Hs Hi]. rewrite <- Hw in Hs, Hi.
  by rewrite (interactive_quiz_finished_buttons inp w s i Hs Hi Hge), Hpg.
Qed.

Lemma completed_quiz_ignores_answers_witness :
  outcome (submitAnswer 2)
    (run_all [submitAnswer 1; submitAnswer 1; submitAnswer 2] initial_session) =
    Ok tt ∧
  quiz_state
    (next_session (submitAnswer 2)
       (run_all [submitAnswer 1; submitAnswer 1; submitAnswer 2] initial_session)) =
    Some {| score := 3; currentIndex := 3 |} ∧
  omap button_key
    (page (run (submitAnswer 2)
             (run_all [submitAnswer 1; submitAnswer 1; submitAnswer 2]
                initial_session)).2) = ["Restart Quiz"].
Proof.
  apply (completed_quiz_ignores_answers (submitAnswer 2)
           (run_all [submitAnswer 1; submitAnswer 1; submitAnswer 2]
              initial_session) 3 3).
  - reflexivity.
  - vm_compute. reflexivity.
  - vm_compute. discriminate.
  - reflexivity.
Defined.

(** X10. While a question is open the panel offers the option buttons only:
    a click reported for the restart button is not looked at, so without a
    click on an option the run ends normally and leaves both quiz counters as
    they were. *)
Theorem open_question_ignores_restart
    (inp : Inputs) (σ : gmap string Z) (s i : Z) (q : QuizQuestion) :
  radio_value inp = "Interactive Quiz" →
  quiz_state σ = Some {| score := s; currentIndex := i |} →
  i < len_quiz_questions →
  py_getitem quiz_questions i = Some q →
  first_clicked inp 0 (length (options q)) = None →
  outcome inp σ = Ok tt ∧
  quiz_state (next_session inp σ) = Some {| score := s; currentIndex := i |} ∧
  omap button_key (page (run inp σ).2) =
    (λ k, "option_" +:+ str_of_nat k) <$> seq 0 (length (options q)).
Proof.
  intros Hr Hst Hlt Hq Hnone.
  pose proof (run_quiz_asking inp σ s i q Hr Hst Hlt Hq) as Hrun.
  rewrite Hnone in Hrun. destruct Hrun as [Hout Hnext].
  split; [done|]. split; [by rewrite Hnext|].
  destruct (run_quiz_panel inp σ _ Hr Hst) as (w & -> & Hw & Hpg).
  apply quiz_state_lookups in Hst as [Hs Hi]. rewrite <- Hw in Hs, Hi.
  destruct (interactive_quiz_asking_buttons inp w s i q Hs Hi Hlt Hq)
    as (pg & -> & Hbtn).
  rewrite (option_buttons_no_click q (options q) 0 inp _ Hnone).
  cbn [snd page]. rewrite omap_app, Hbtn, Hpg. apply option_button_keys.
Qed.

Lemma open_question_ignores_restart_witness :
  outcome restart initial_session = Ok tt ∧
  quiz_state (next_session restart initial_session) =
    Some {| score := 0; currentIndex := 0 |} ∧
  omap button_key (page (run restart initial_session).2) =
    (λ k, "option_" +:+ str_of_nat k) <$> seq 0 4.
Proof.
  apply (open_question_ignores_restart restart initial_session 0 0
           (mkQuizQuestion
              "What percentage of global medical isotopes are produced in research reactors?"
              ["25%"; "40%"; "60%"; "75%"] 1)); reflexivity.
Defined.

(** X11. The message a click on an option draws agrees with the scoring: the
    last element of the page is the success message and the score goes up by
    1 when the first clicked option is the answer, and it is the error
    message and the score is unchanged otherwise. *)
Theorem feedback_matches_scoring
    (inp : Inputs) (σ : gmap string Z) (s i : Z) (q : QuizQuestion) (j : nat) :
  radio_value inp = "Interactive Quiz" →
  quiz_state σ = Some {| score := s; currentIndex := i |} →
  i < len_quiz_questions →
  py_getitem quiz_questions i = Some q →
  first_clicked inp 0 (length (options q)) = Some j →
  (Z.of_nat j = answer q →
   last (page (run inp σ).2) = Some (success "Correct!") ∧
   quiz_state (next_session inp σ) =
     Some {| score := s + 1; currentIndex := i + 1 |}) ∧
  (Z.of_nat j ≠ answer q →
   last (page (run inp σ).2) = Some (error "Incorrect!") ∧
   quiz_state (next_session inp σ) =
     Some {| score := s; currentIndex := i + 1 |}).
Proof.
  intros Hr Hst Hlt Hq Hj.
  pose proof (run_quiz_asking inp σ s i q Hr Hst Hlt Hq) as Hrun.
  rewrite Hj in Hrun. destruct Hrun as [_ Hnext].
  assert (last (page (run inp σ).2) =
            Some (if bool_decide (Z.of_nat j = answer q)
                  then success "Correct!" else error "Incorrect!")) as Hlast.
  { destruct (run_quiz_panel inp σ _ Hr Hst) as (w & -> & Hw & _).
    pose proof Hst as [Hs Hi]%quiz_state_lookups. rewrite <- Hw in Hs, Hi.
    destruct (interactive_quiz_asking inp w s i q Hs Hi Hlt Hq) as (pg & ->).
    by apply (option_buttons_feedback q (options q) 0 inp _ s i j). }
  pose proof Hst as [Hs _]%quiz_state_lookups.
  rewrite Hlast, Hnext, (quiz_state_answered q j s i σ Hs).
  split; intros Hans.
  - by rewrite bool_decide_eq_true_2.
  - by rewrite bool_decide_eq_false_2.
Qed.

Lemma feedback_matches_scoring_witness :
  (Z.of_nat 1 = 1 →
   last (page (run (submitAnswer 1) initial_session).2) =
     Some (success "Correct!") ∧
   quiz_state (next_session (submitAnswer 1) initial_session) =
     Some {| score := 0 + 1; currentIndex := 0 + 1 |}) ∧
  (Z.of_nat 1 ≠ 1 →
   last (page (run (submitAnswer 1) initial_session).2) =
     Some (error "Incorrect!") ∧
   quiz_state (next_session (submitAnswer 1) initial_session) =
     Some {| score := 0; currentIndex := 0 + 1 |}).
Proof.
  apply (feedback_matches_scoring (submitAnswer 1) initial_session 0 0
           (mkQuizQuestion
              "What percentage of global medical isotopes are produced in research reactors?"
              ["25%"; "40%"; "60%"; "75%"] 1) 1); reflexivity.
Defined.

(** ** The score counts the correct answers *)

Lemma submissions_score (sels : list nat) : ∀ (n : nat) (σ : gmap string Z) (s : Z),
  quiz_state σ = Some {| score := s; currentIndex := Z.of_nat n |} →
  (n + length sels ≤ 3)%nat →
  Forall (λ j, j ≤ 3)%nat sels →
  quiz_state (run_all (submitAnswer <$> sels) σ) =
    Some {| score := s + correct_answers (drop n quiz_questions) sels;
            currentIndex := Z.of_nat (n + length sels) |}.
Proof.
  induction sels as [|j sels IH]; intros n σ s Hst Hlen Hsels.
  - cbn [fmap list_fmap run_all foldl length]. rewrite Hst.
    rewrite Nat.add_0_r. do 2 f_equal.
    destruct (drop n quiz_questions); simpl; lia.
  - cbn [length] in Hlen.
    apply Forall_cons in Hsels as [Hj Hsels].
    assert (0 ≤ Z.of_nat n < len_quiz_questions) as Hn
      by (unfold len_quiz_questions; simpl; lia).
    destruct (open_question (Z.of_nat n) Hn) as (q & Hq & _).
    destruct (submitAnswer_run σ s (Z.of_nat n) q j Hst Hn Hq Hj)
      as (_ & _ & Hnext).
    rewrite Nat2Z.id in Hq. rewrite (drop_S _ _ _ Hq).
    cbn [fmap list_fmap run_all foldl correct_answers length].
    replace (Z.of_nat n + 1) with (Z.of_nat (S n)) in Hnext by lia.
    pose proof (IH (S n) _ _ Hnext ltac:(lia) Hsels) as Hrest.
    unfold run_all in Hrest. rewrite Hrest. do 2 f_equal.
    + case_bool_decide; lia.
    + lia.
Qed.

(** X12. From a session with both counters at 0 (a new session, or one just
    restarted), after any sequence of at most three answer submissions the
    question index is the number of submissions and the score is the number
    of them that picked the answer of their question. *)
Theorem score_counts_correct_answers (σ : gmap string Z) (sels : list nat) :
  quiz_state σ = Some {| score := 0; currentIndex := 0 |} →
  (length sels ≤ 3)%nat →
  Forall (λ j, j ≤ 3)%nat sels →
  quiz_state (run_all (submitAnswer <$> sels) σ) =
    Some {| score := correct_answers quiz_questions sels;
            currentIndex := Z.of_nat (length sels) |}.
Proof.
  intros Hst Hlen Hsels.
  exact (submissions_score sels 0 σ 0 Hst Hlen Hsels).
Qed.

Lemma score_counts_correct_answers_witness :
  quiz_state (run_all (submitAnswer <$> [0; 1; 2]%nat)
                (next_session restart
                   (run_all (submitAnswer <$> [1; 1; 2]%nat) initial_session))) =
    Some {| score := correct_answers quiz_questions [0; 1; 2]%nat;
            currentIndex := Z.of_nat (length [0; 1; 2]%nat) |}.
Proof.
  apply (score_counts_correct_answers
           (next_session restart
              (run_all (submitAnswer <$> [1; 1; 2]%nat) initial_session))
           [0; 1; 2]%nat).
  - vm_compute. reflexivity.
  - simpl. lia.
  - repeat constructor.
Defined.

(** ** The Sector Applications panel *)

(** X13. With a sector other than Medical and Industrial selected (the select
    box also offers Agricultural and Space Technology, which have no branch)
    the Sector Applications panel draws its title and the select box and
    nothing else, and the run ends normally. *)
Theorem sector_without_branch (inp : Inputs) (σ : gmap string Z) (st : QuizState) :
  radio_value inp = "Sector Applications" →
  selectbox_value inp ≠ "Medical" →
  selectbox_value inp ≠ "Industrial" →
  quiz_state σ = Some st →
  outcome inp σ = Ok tt ∧
  page (run inp σ).2 =
    (page (sidebar inp {| session_state := σ; page := [] |}).2 ++
     [title "📊 Sector Applications Analysis";
      selectbox "Select Sector"
        ["Medical"; "Industrial"; "Agricultural"; "Space Technology"]])%list.
Proof.
  intros Hr Hmed Hind Hst. unfold outcome.
  rewrite (run_initialised _ _ _ Hst).
  destruct (main_run inp {| session_state := σ; page := [] |}) as (df & _ & ->).
  rewrite Hr. change (selectPanel "Sector Applications") with SectorApplications.
  cbn [render]. rewrite sector_applications_run.
  rewrite !bool_decide_eq_false_2 by done.
  rewrite mret_run. done.
Qed.

Lemma sector_without_branch_witness :
  outcome (mkInputs "Sector Applications" "Agricultural" (λ _, false) (λ _, true))
    initial_session = Ok tt.
Proof.
  refine (proj1 (sector_without_branch
                   (mkInputs "Sector Applications" "Agricultural"
                      (λ _, false) (λ _, true))
                   initial_session {| score := 0; currentIndex := 0 |} _ _ _ _));
    [reflexivity | discriminate | discriminate | reflexivity].
Defined.

(** ** The chart of the top producers *)

Lemma insert_desc_Permutation r l : insert_desc r l ≡ₚ r :: l.
Proof.
  induction l as [|r' l IH]; [done|]. cbn [insert_desc].
  destruct (productionShare r <? productionShare r'); [|done].
  rewrite IH. apply Permutation_swap.
Qed.

Lemma sort_values_desc_Permutation l : sort_values_desc l ≡ₚ l.
Proof.
  unfold sort_values_desc. induction l as [|r l IH]; [done|].
  cbn [foldr]. by rewrite insert_desc_Permutation, IH.
Qed.

Lemma insert_desc_sorted r l :
  StronglySorted (λ a b, productionShare b ≤ productionShare a) l →
  StronglySorted (λ a b, productionShare b ≤ productionShare a) (insert_desc r l).
Proof.
  induction 1 as [|r' l Hl IH Hall]; cbn [insert_desc].
  - repeat constructor.
  - destruct (productionShare r <? productionShare r') eqn:Hlt.
    + apply Z.ltb_lt in Hlt. constructor; [done|].
      rewrite insert_desc_Permutation. constructor; [lia | done].
    + apply Z.ltb_ge in Hlt. constructor; [by constructor|].
      constructor; [lia|].
      eapply Forall_impl; [exact Hall|]. cbv beta. intros x ?. lia.
Qed.

Lemma sort_values_desc_sorted l :
  StronglySorted (λ a b, productionShare b ≤ productionShare a)
    (sort_values_desc l).
Proof.
  unfold sort_values_desc. induction l as [|r l IH]; cbn [foldr].
  - constructor.
  - by apply insert_desc_sorted.
Qed.

(** Rows of equal share keep their order. *)
Example sort_values_desc_ties :
  country <$> sort_values_desc
                [mkCountryStat "A" 3 0.1 1; mkCountryStat "B" 9 0.2 2;
                 mkCountryStat "C" 3 0.3 3] = ["B"; "A"; "C"].
Proof. reflexivity. Qed.

Lemma NoDup_fmap_eq {A B : Type} (f : A → B) (l : list A) x y :
  NoDup (f <$> l) → x ∈ l → y ∈ l → f x = f y → x = y.
Proof.
  intros Hnd [i Hi]%list_elem_of_lookup [j Hj]%list_elem_of_lookup Hxy.
  assert (i = j) as ->.
  { apply (NoDup_lookup (f <$> l) i j (f x) Hnd).
    - by rewrite list_lookup_fmap, Hi.
    - by rewrite list_lookup_fmap, Hj, Hxy. }
  congruence.
Qed.

(** In a frame without two rows of equal share there is one way only to list
    the rows in non-increasing order of share. *)
Lemma sorted_rows_unique (rs l : list CountryStat) :
  NoDup (productionShare <$> rs) →
  l ≡ₚ rs →
  StronglySorted (λ a b, productionShare b ≤ productionShare a) l →
  l = sort_values_desc rs.
Proof.
  intros Hnd Hperm Hsorted.
  apply (StronglySorted_unique_strong
           (λ a b, productionShare b ≤ productionShare a));
    [| done | apply sort_values_desc_sorted
     | by rewrite Hperm, sort_values_desc_Permutation].
  intros x1 x2 Hx1 Hx2 H12 H21. cbv beta in H12, H21.
  apply (NoDup_fmap_eq productionShare rs x1 x2 Hnd).
  - by rewrite <- Hperm.
  - by rewrite <- (sort_values_desc_Permutation rs).
  - lia.
Qed.

(** X14. For a data frame without two rows of equal share, the last element
    of the Global Dashboard is the bar chart of the first 5 rows in
    decreasing order of share, whichever way the rows are sorted: it shows
    [min 5 n] of the [n] rows, in strictly decreasing order of share, and
    every row left out has a smaller share than every row shown. *)
Theorem top_producers_chart (df : DataFrame) (inp : Inputs) (w : World) :
  NoDup (productionShare <$> rows df) →
  (∀ l, l ≡ₚ rows df →
        StronglySorted (λ a b, productionShare b ≤ productionShare a) l →
        last (page (global_dashboard df inp w).2) =
          Some (plotly_chart (bar (production_pairs (take 5 l))
                                "Country" "Isotope Production (%)"))) ∧
  length (production_pairs (take 5 (sort_values_desc (rows df)))) =
    (5 `min` length (rows df))%nat ∧
  StronglySorted (λ a b, productionShare b < productionShare a)
    (take 5 (sort_values_desc (rows df))) ∧
  ∀ r r', r ∈ take 5 (sort_values_desc (rows df)) →
          r' ∈ rows df →
          r' ∉ take 5 (sort_values_desc (rows df)) →
          productionShare r' < productionShare r.
Proof.
  intros Hnd.
  pose proof (sort_values_desc_sorted (rows df)) as Hsorted.
  pose proof (sort_values_desc_Permutation (rows df)) as Hperm.
  assert (∀ x y, x ∈ sort_values_desc (rows df) →
                 y ∈ sort_values_desc (rows df) →
                 productionShare x = productionShare y → x = y) as Hinj.
  { intros x y Hx Hy. rewrite Hperm in Hx, Hy.
    by apply (NoDup_fmap_eq productionShare (rows df)). }
  assert (NoDup (sort_values_desc (rows df))) as Hnd'.
  { rewrite Hperm. by apply (NoDup_fmap_1 productionShare). }
  rewrite <- (take_drop 5 (sort_values_desc (rows df))) in Hsorted, Hnd'.
  split.
  { intros l Hl Hls. rewrite (sorted_rows_unique (rows df) l Hnd Hl Hls).
    apply last_snoc. }
  split.
  { unfold production_pairs. by rewrite length_fmap, length_take, Hperm. }
  split.
  { apply StronglySorted_app_1_l in Hsorted.
    apply NoDup_app in Hnd' as (Hnd' & _ & _).
    assert (∀ x, x ∈ take 5 (sort_values_desc (rows df)) →
                 x ∈ sort_values_desc (rows df)) as Hsub
      by (intros x Hx; by apply (subseteq_take 5)).
    induction Hsorted as [|x l Hl IH Hall]; constructor.
    - apply IH; [by apply NoDup_cons in Hnd' as [_ ?]|].
      intros y Hy. apply Hsub. by right.
    - apply NoDup_cons in Hnd' as [Hx _].
      apply Forall_forall. intros y Hy.
      rewrite Forall_forall in Hall. specialize (Hall y Hy). cbv beta in Hall.
      destruct (decide (productionShare y = productionShare x)) as [Heq|]; [|lia].
      exfalso. apply Hx.
      rewrite <- (Hinj y x); [done | apply Hsub; by right | apply Hsub; by left
                             | done]. }
  intros r r' Hr Hr' Hnot.
  assert (r' ∈ drop 5 (sort_values_desc (rows df))) as Hdrop.
  { rewrite <- Hperm, <- (take_drop 5 (sort_values_desc (rows df))) in Hr'.
    apply elem_of_app in Hr' as [?|?]; done. }
  pose proof (StronglySorted_app_1_elem_of
                (λ a b, productionShare b ≤ productionShare a)
                _ _ r r' Hsorted Hr Hdrop) as Hle. cbv beta in Hle.
  destruct (decide (productionShare r' = productionShare r)) as [Heq|]; [|lia].
  exfalso. apply Hnot.
  rewrite (Hinj r' r); [done | | | done].
  - rewrite <- (take_drop 5 (sort_values_desc (rows df))).
    apply elem_of_app. by right.
  - by apply (subseteq_take 5).
Qed.

Lemma top_producers_chart_witness :
  length (production_pairs
            (take 5 (sort_values_desc
                       (rows (mkDataFrame
                                ["A"; "B"; "C"; "D"; "E"; "F"; "G"]
                                [3; 9; 4; 1; 7; 8; 2]
                                [0.1; 0.2; 0.3; 0.4; 0.5; 0.6; 0.7]%Q
                                [1; 2; 3; 4; 5; 6; 7]))))) =
    (5 `min` 7)%nat.
Proof.
  refine (proj1 (proj2 (top_producers_chart
                          (mkDataFrame
                             ["A"; "B"; "C"; "D"; "E"; "F"; "G"]
                             [3; 9; 4; 1; 7; 8; 2]
                             [0.1; 0.2; 0.3; 0.4; 0.5; 0.6; 0.7]%Q
                             [1; 2; 3; 4; 5; 6; 7])
                          (quiz_inputs (λ _, false))
                          {| session_state := ∅; page := [] |} _))).
  cbn. apply (bool_decide_unpack (NoDup [3; 9; 4; 1; 7; 8; 2])).
  vm_compute. exact I.
Defined.

(** ** The quiz can always be brought back to its start *)

Lemma run_all_app inps1 inps2 σ :
  run_all (inps1 ++ inps2) σ = run_all inps2 (run_all inps1 σ).
Proof. apply foldl_app. Qed.

(** X15. From every reachable session the counters can be brought back to
    score 0 and question index 0 by at most four interactions: answering the
    questions that are left, then clicking the restart button. *)
Theorem quiz_can_be_restarted (σ : gmap string Z) :
  reachable σ →
  ∃ inps, (length inps ≤ 4)%nat ∧
          quiz_state (run_all inps σ) = Some {| score := 0; currentIndex := 0 |}.
Proof.
  intros Hreach.
  assert (score_within_index σ) as (s & i & Hst & Hs & Hi).
  { induction Hreach as [|inp' σ' _ IH].
    - exact score_within_index_initial.
    - by apply run_preserves_score_within_index. }
  unfold len_quiz_questions in Hi. cbn [length quiz_questions] in Hi.
  set (n := Z.to_nat i).
  exists ((submitAnswer <$> replicate (3 - n) 0%nat) ++ [restart])%list.
  split.
  { rewrite length_app, length_fmap, length_replicate. cbn [length]. lia. }
  rewrite run_all_app.
  assert (quiz_state σ = Some {| score := s; currentIndex := Z.of_nat n |}) as Hst'
    by (unfold n; rewrite Z2Nat.id by lia; exact Hst).
  pose proof (submissions_score (replicate (3 - n) 0%nat) n σ s Hst'
                ltac:(rewrite length_replicate; lia)
                ltac:(apply Forall_replicate; lia)) as Hfin.
  rewrite length_replicate in Hfin.
  replace (n + (3 - n))%nat with 3%nat in Hfin by lia.
  change (run_all [restart] ?σ') with (next_session restart σ').
  destruct (run_quiz_finished restart _ _ _ eq_refl Hfin ltac:(done))
    as [_ Hnext].
  change (button_value restart "Restart Quiz") with true in Hnext.
  rewrite Hnext. apply quiz_state_restarted.
Qed.

Lemma quiz_can_be_restarted_witness :
  ∃ inps, (length inps ≤ 4)%nat ∧
          quiz_state (run_all inps (next_session (submitAnswer 1) initial_session)) =
            Some {| score := 0; currentIndex := 0 |}.
Proof.
  apply (quiz_can_be_restarted (next_session (submitAnswer 1) initial_session)).
  apply reachable_run, reachable_initial.
Defined.
